(** * Confidential Space vTPM attestation: client and token validator

    Shallow embedding of
    - [src/src/flare_ai_defai/attestation/vtpm_attestation.py]
      (class [Vtpm]: nonce check and token request), and
    - [src/src/flare_ai_defai/attestation/vtpm_validation.py]
      (class [VtpmValidation]: PKI and OIDC token validation).

    Python values decoded from JSON are [json]; a Python exception is an
    [exn] carrying its class and its message; the code runs in a small
    state/exception monad [M] whose state is the trace of observable
    actions (HTTP fetches, certificate decoding, socket operations).
    Libraries the code calls (requests, PyJWT, cryptography, OpenSSL, the
    Unix socket) are inputs: records of functions giving their answers. *)

From Stdlib Require Import String Ascii ZArith NArith List Bool Lia.
Import ListNotations.
Open Scope string_scope.
Open Scope Z_scope.
Open Scope list_scope.
Set Warnings "-register-all".

(** ** Python values *)

(** A value decoded by [json.loads]; an object is the parsed dict as an
    association list (keys distinct). *)
Inductive json : Type :=
| JNull
| JBool (b : bool)
| JNum (z : Z)
| JStr (s : string)
| JList (l : list json)
| JObj (kv : list (string * json)).

Fixpoint assoc {A} (k : string) (kv : list (string * A)) : option A :=
  match kv with
  | [] => None
  | (k', v) :: r => if String.eqb k' k then Some v else assoc k r
  end.

(** Python [==] on JSON values ([True == 1] included). *)
Fixpoint json_eqb (a b : json) {struct a} : bool :=
  match a, b with
  | JNull, JNull => true
  | JBool x, JBool y => Bool.eqb x y
  | JBool x, JNum z => Z.eqb z (Z.b2z x)
  | JNum z, JBool y => Z.eqb z (Z.b2z y)
  | JNum x, JNum y => Z.eqb x y
  | JStr x, JStr y => String.eqb x y
  | JList xs, JList ys =>
      (fix go (xs ys : list json) : bool :=
         match xs, ys with
         | [], [] => true
         | x :: xs', y :: ys' => json_eqb x y && go xs' ys'
         | _, _ => false
         end) xs ys
  | JObj xs, JObj ys =>
      Nat.eqb (length xs) (length ys) &&
      (fix go (xs : list (string * json)) : bool :=
         match xs with
         | [] => true
         | (k, v) :: r =>
             match assoc k ys with
             | Some w => json_eqb v w
             | None => false
             end && go r
         end) xs
  | _, _ => false
  end.

(** Python truthiness ([if v:]). *)
Definition py_truthy (v : json) : bool :=
  match v with
  | JNull => false
  | JBool b => b
  | JNum z => negb (Z.eqb z 0)
  | JStr s => negb (String.eqb s "")
  | JList l => negb (match l with [] => true | _ => false end)
  | JObj kv => negb (match kv with [] => true | _ => false end)
  end.

(** ** Exceptions *)

(** The exception classes the code raises or meets. *)
Inductive exc_class : Type :=
| VtpmValidationError
| InvalidCertificateChainError
| CertificateParsingError
| SignatureValidationError
| VtpmAttestationError
| HTTPError              (* requests.exceptions.HTTPError *)
| RequestException       (* requests.exceptions.RequestException *)
| OSError
| KeyError
| LookupError
| TypeError
| AttributeError
| ValueError
| UnicodeEncodeError
| InvalidKey             (* cryptography.exceptions.InvalidKey *)
| PyJWTError
| InvalidTokenError      (* jwt.InvalidTokenError *)
| DecodeError            (* jwt.DecodeError *)
| ExpiredSignatureError  (* jwt.ExpiredSignatureError *)
| OpenSSLError           (* OpenSSL.crypto.Error *)
| JSONDecodeError        (* requests.exceptions.JSONDecodeError *)
| IndexError
| RemoteDisconnected     (* http.client.RemoteDisconnected *)
| UnicodeDecodeError
| X509StoreContextError. (* OpenSSL.crypto.X509StoreContextError *)

Scheme Equality for exc_class.

(** The class and its base classes, below [Exception]. *)
Definition mro (c : exc_class) : list exc_class :=
  match c with
  | VtpmValidationError => [VtpmValidationError]
  | InvalidCertificateChainError => [InvalidCertificateChainError; VtpmValidationError]
  | CertificateParsingError => [CertificateParsingError; VtpmValidationError]
  | SignatureValidationError => [SignatureValidationError; VtpmValidationError]
  | VtpmAttestationError => [VtpmAttestationError]
  | HTTPError => [HTTPError; RequestException; OSError]
  | RequestException => [RequestException; OSError]
  | OSError => [OSError]
  | KeyError => [KeyError; LookupError]
  | LookupError => [LookupError]
  | TypeError => [TypeError]
  | AttributeError => [AttributeError]
  | ValueError => [ValueError]
  | UnicodeEncodeError => [UnicodeEncodeError; ValueError]
  | InvalidKey => [InvalidKey]
  | PyJWTError => [PyJWTError]
  | InvalidTokenError => [InvalidTokenError; PyJWTError]
  | DecodeError => [DecodeError; InvalidTokenError; PyJWTError]
  | ExpiredSignatureError => [ExpiredSignatureError; InvalidTokenError; PyJWTError]
  | OpenSSLError => [OpenSSLError]
  | JSONDecodeError => [JSONDecodeError; RequestException; OSError; ValueError]
  | IndexError => [IndexError; LookupError]
  (* below OSError also ConnectionResetError and ConnectionError, and
     BadStatusLine and HTTPException, none of which this file tests *)
  | RemoteDisconnected => [RemoteDisconnected; OSError]
  | UnicodeDecodeError => [UnicodeDecodeError; ValueError]
  (* a direct subclass of Exception, not of OpenSSL.crypto.Error *)
  | X509StoreContextError => [X509StoreContextError]
  end.

Definition isinstance (c base : exc_class) : bool :=
  existsb (exc_class_beq base) (mro c).

(** A piece of an exception message: literal text, an interpolated
    integer, nonce (code points), JSON value or string. *)
Inductive piece : Type :=
| Lit (s : string)
| Num (z : Z)
| Nonce (cps : list Z)
| Val (v : json)
| Text (s : string).

Record exn : Type := mkExn { cls : exc_class; msg : list piece }.

(** ** Effects *)

(** Observable actions, recorded in order. *)
Inductive event : Type :=
| EvHttpGet (url : string)
| EvDecodeCert (cert : json)
| EvChainVerify
| EvJwtDecode
| EvSockCreate (fd : nat)
| EvSockConnect (fd : nat) (path : string)
| EvSockSend (fd : nat)
| EvSockRecv (fd : nat)        (* conn.getresponse() reads the response *)
| EvSockClose (fd : nat).      (* client_socket.close(), by conn.close() from get_token or getresponse *)

Inductive outcome (A : Type) : Type :=
| Ok (a : A)
| Raise (e : exn).
Arguments Ok {A} a.
Arguments Raise {A} e.

Definition M (A : Type) : Type := list event -> outcome A * list event.

Definition ret {A} (a : A) : M A := fun t => (Ok a, t).
Definition raise {A} (e : exn) : M A := fun t => (Raise e, t).
Definition emit (ev : event) : M unit := fun t => (Ok tt, (t ++ [ev])%list).
Definition bind {A B} (m : M A) (k : A -> M B) : M B :=
  fun t => match m t with
           | (Ok a, t') => k a t'
           | (Raise e, t') => (Raise e, t')
           end.
(** [try: m except ...: h]; the handler decides by the exception. *)
Definition try_except {A} (m : M A) (h : exn -> M A) : M A :=
  fun t => match m t with
           | (Ok a, t') => (Ok a, t')
           | (Raise e, t') => h e t'
           end.
Definition lift {A} (o : outcome A) : M A :=
  match o with Ok a => ret a | Raise e => raise e end.

Notation "'let!' x ':=' m 'in' k" := (bind m (fun x => k))
  (at level 200, x name, m at level 100, k at level 200).
Notation "m ;; k" := (bind m (fun _ => k)) (at level 100, right associativity).

Fixpoint mapM {A B} (f : A -> M B) (l : list A) : M (list B) :=
  match l with
  | [] => ret []
  | x :: r => let! y := f x in let! ys := mapM f r in ret (y :: ys)
  end.

(** [d[k]] on a JSON value. *)
Definition subscript (d : json) (k : string) : outcome json :=
  match d with
  | JObj kv =>
      match assoc k kv with
      | Some v => Ok v
      | None => Raise (mkExn KeyError [Val (JStr k)])
      end
  | _ => Raise (mkExn TypeError [Lit "object is not subscriptable by str"])
  end.

(** [d.get(k)] on a JSON value ([None] when missing). *)
Definition py_get (d : json) (k : string) : outcome json :=
  match d with
  | JObj kv => Ok (match assoc k kv with Some v => v | None => JNull end)
  | _ => Raise (mkExn AttributeError [Lit "object has no attribute 'get'"])
  end.

(** [len(v)]. *)
Definition py_len (v : json) : outcome nat :=
  match v with
  | JStr s => Ok (String.length s)
  | JList l => Ok (length l)
  | JObj kv => Ok (length kv)
  | _ => Raise (mkExn TypeError [Lit "object has no len()"])
  end.

(** [for x in v]. *)
Definition py_iter (v : json) : outcome (list json) :=
  match v with
  | JStr s => Ok (map (fun c => JStr (String c EmptyString)) (list_ascii_of_string s))
  | JList l => Ok l
  | JObj kv => Ok (map (fun p => JStr (fst p)) kv)
  | _ => Raise (mkExn TypeError [Lit "object is not iterable"])
  end.

(** ** Attestation client ([vtpm_attestation.py]) *)

Module Attestation.

(** A Python [str] as its code points. *)
Definition pystr := list Z.

(** [str.encode("utf-8")] of one code point; a lone surrogate raises. *)
Definition utf8_encode_char (cp : Z) : option (list Z) :=
  if cp <? 128 then Some [cp]
  else if cp <? 2048 then
    Some [Z.lor 192 (Z.shiftr cp 6); Z.lor 128 (Z.land cp 63)]
  else if (55296 <=? cp) && (cp <=? 57343) then None
  else if cp <? 65536 then
    Some [Z.lor 224 (Z.shiftr cp 12); Z.lor 128 (Z.land (Z.shiftr cp 6) 63);
          Z.lor 128 (Z.land cp 63)]
  else
    Some [Z.lor 240 (Z.shiftr cp 18); Z.lor 128 (Z.land (Z.shiftr cp 12) 63);
          Z.lor 128 (Z.land (Z.shiftr cp 6) 63); Z.lor 128 (Z.land cp 63)].

Fixpoint utf8_encode (s : pystr) : option (list Z) :=
  match s with
  | [] => Some []
  | c :: r =>
      match utf8_encode_char c, utf8_encode r with
      | Some b, Some bs => Some (b ++ bs)
      | _, _ => None
      end
  end.

(** [nonce.encode("utf-8")] in the monad. *)
Definition encode_utf8 (s : pystr) : M (list Z) :=
  match utf8_encode s with
  | Some b => ret b
  | None => raise (mkExn UnicodeEncodeError [Lit "surrogates not allowed"])
  end.

Definition byte_in (lo hi b : Z) : bool := (lo <=? b) && (b <=? hi).

(** [bytes.decode()] (strict UTF-8): [None] is a [UnicodeDecodeError].
    The second byte's range excludes overlong forms, surrogates and code
    points above U+10FFFF. *)
Fixpoint utf8_decode (bs : list Z) : option pystr :=
  match bs with
  | [] => Some []
  | b0 :: r =>
      if b0 <? 128 then option_map (cons b0) (utf8_decode r)
      else if byte_in 194 223 b0 then
        match r with
        | b1 :: r1 =>
            if byte_in 128 191 b1
            then option_map (cons (Z.lor (Z.shiftl (Z.land b0 31) 6) (Z.land b1 63)))
                   (utf8_decode r1)
            else None
        | [] => None
        end
      else if byte_in 224 239 b0 then
        let lo := if b0 =? 224 then 160 else 128 in
        let hi := if b0 =? 237 then 159 else 191 in
        match r with
        | b1 :: b2 :: r2 =>
            if byte_in lo hi b1 && byte_in 128 191 b2
            then option_map (cons (Z.lor (Z.shiftl (Z.land b0 15) 12)
                                     (Z.lor (Z.shiftl (Z.land b1 63) 6) (Z.land b2 63))))
                   (utf8_decode r2)
            else None
        | _ => None
        end
      else if byte_in 240 244 b0 then
        let lo := if b0 =? 240 then 144 else 128 in
        let hi := if b0 =? 244 then 143 else 191 in
        match r with
        | b1 :: b2 :: b3 :: r3 =>
            if byte_in lo hi b1 && byte_in 128 191 b2 && byte_in 128 191 b3
            then option_map (cons (Z.lor (Z.shiftl (Z.land b0 7) 18)
                                     (Z.lor (Z.shiftl (Z.land b1 63) 12)
                                        (Z.lor (Z.shiftl (Z.land b2 63) 6) (Z.land b3 63)))))
                   (utf8_decode r3)
            else None
        | _ => None
        end
      else None
  end.

(** [Vtpm.__init__] *)
Record Vtpm : Type := mkVtpm {
  url : string;
  unix_socket_path : string;
  simulate : bool;
}.

Definition default_vtpm (simulate : bool) : Vtpm :=
  mkVtpm "http://localhost/v1/token" "/run/container_launcher/teeserver.sock" simulate.

(** The loop of [Vtpm._check_nonce_length]. The second line of the
    message, [f" and {max_byte_len} bytes"], is a statement of its own in
    the source: its value is discarded and [msg] ends after the lower
    bound. *)
Fixpoint check_nonces (min_byte_len max_byte_len : Z) (nonces : list pystr) : M unit :=
  match nonces with
  | [] => ret tt
  | nonce :: rest =>
      let! b := encode_utf8 nonce in
      let byte_len := Z.of_nat (length b) in
      if (byte_len <? min_byte_len) || (byte_len >? max_byte_len) then
        let msg := [Lit "Nonce '"; Nonce nonce; Lit "' must be between ";
                    Num min_byte_len; Lit " bytes"] in
        let _discarded := [Lit " and "; Num max_byte_len; Lit " bytes"] in
        raise (mkExn VtpmAttestationError msg)
      else check_nonces min_byte_len max_byte_len rest
  end.

(** [Vtpm._check_nonce_length] *)
Definition _check_nonce_length (nonces : list pystr) : M unit :=
  let min_byte_len := 10 in
  let max_byte_len := 74 in
  check_nonces min_byte_len max_byte_len nonces.

(** What [conn.getresponse()] reads: status line, body bytes, and
    [HTTPResponse.will_close] (HTTP/1.0, or a [Connection: close]
    header). *)
Record HttpResponse : Type := mkHttpResponse {
  status : Z;
  reason : string;
  body : list Z;
  will_close : bool;
}.

(** The Unix socket and the attestation service behind it. *)
Record SocketWorld : Type := mkSocketWorld {
  connect_ok : string -> bool;          (* client_socket.connect(path) *)
  send_ok : bool;                       (* conn.request(...) *)
  response : option HttpResponse;       (* None: the peer closed without answering *)
}.

(** A new socket object: its descriptor is the number of sockets created
    so far. *)
Fixpoint sockets_created (t : list event) : nat :=
  match t with
  | [] => O
  | EvSockCreate _ :: r => S (sockets_created r)
  | _ :: r => sockets_created r
  end.

Definition new_socket : M nat :=
  fun t => let fd := sockets_created t in (Ok fd, (t ++ [EvSockCreate fd])%list).

Section GetToken.

(** [SIM_TOKEN]: the first line of [simulated_token.txt], read once when
    the module is imported. *)
Variable SIM_TOKEN : pystr.

(** [Vtpm.get_token] *)
Definition get_token (sw : SocketWorld) (self : Vtpm) (nonces : list pystr)
    (audience token_type : string) : M pystr :=
  _check_nonce_length nonces ;;
  if simulate self then ret SIM_TOKEN
  else
    (* client_socket = socket.socket(AF_UNIX, SOCK_STREAM); connect *)
    let! fd := new_socket in
    (if connect_ok sw (unix_socket_path self)
     then emit (EvSockConnect fd (unix_socket_path self))
     else raise (mkExn OSError [Lit "connect failed"])) ;;
    (* conn = HTTPConnection("localhost", timeout=10); conn.sock = client_socket *)
    let _body := (audience, token_type, nonces) in
    (* conn.request("POST", self.url, body=body, headers=headers) *)
    (if send_ok sw then emit (EvSockSend fd)
     else raise (mkExn OSError [Lit "send failed"])) ;;
    (* res = conn.getresponse() *)
    emit (EvSockRecv fd) ;;
    match response sw with
    | None =>
        (* getresponse: except ConnectionError: self.close(); raise *)
        emit (EvSockClose fd) ;;
        raise (mkExn RemoteDisconnected [Lit "Remote end closed connection without response"])
    | Some res =>
        (* getresponse: if response.will_close: self.close() *)
        (if will_close res then emit (EvSockClose fd) else ret tt) ;;
        let success_status := 200 in
        if negb (status res =? success_status) then
          raise (mkExn VtpmAttestationError
                   [Lit "Failed to get attestation response: "; Num (status res);
                    Lit " "; Text (reason res)])
        else
          (* token = res.read().decode() *)
          let! token := (match utf8_decode (body res) with
                         | Some s => ret s
                         | None => raise (mkExn UnicodeDecodeError
                                            [Lit "'utf-8' codec can't decode bytes"])
                         end) in
          (* conn.close(): conn.sock is None if getresponse closed it *)
          (if will_close res then ret tt else emit (EvSockClose fd)) ;;
          ret token
    end.

End GetToken.

End Attestation.

(** ** Token validator ([vtpm_validation.py]) *)

Module Validation.

(** An X.509 certificate, by the attributes the validator reads. *)
Record Certificate : Type := mkCert {
  der_bytes : list Z;                       (* input of [cert.fingerprint] *)
  tbs_certificate_bytes : list Z;
  not_valid_before_utc : Z;                 (* instants as seconds *)
  not_valid_after_utc : Z;
  signature_hash_algorithm : option string; (* its [.name] *)
  public_key_is_rsa : bool;
}.

(** [PKICertificates] *)
Record PKICertificates : Type := mkPKICertificates {
  leaf_cert : Certificate;
  intermediate_cert : Certificate;
  root_cert : Certificate;
}.

(** A key given to [jwt.decode]: the leaf's SubjectPublicKeyInfo PEM or
    an RSA public key built from a JWK. *)
Inductive jwt_key : Type :=
| KeyPem (leaf : Certificate)
| KeyRsa (e n : Z).

(** What [jwt.decode] returns: the claims, or an exception. *)
Inductive jwt_result : Type :=
| JwtClaims (claims : json)
| JwtError (c : exc_class) (m : string).

(** [requests.Response] *)
Record Response : Type := mkResponse {
  status_code : Z;
  content : list Z;
  json_body : option json;  (* [response.json()]; [None]: not JSON *)
}.

(** The libraries and the network, as seen by the validator. *)
Record World : Type := mkWorld {
  http_get : string -> option Response;       (* requests.get; None: transport error *)
  now : Z;                                    (* datetime.now(tz=UTC) *)
  jwt_header_segment : string -> option json; (* the decoded header segment of a JWT *)
  load_pem : list Z -> Certificate + string;  (* x509.load_pem_x509_certificate *)
  load_der_b64 : string -> Certificate + string;
    (* cleanup regex, base64.b64decode and x509.load_der_x509_certificate *)
  sha1 : list Z -> list Z;
  sha256 : list Z -> list Z;
  chain_verify : Certificate -> Certificate -> Certificate -> option (exc_class * string);
    (* X509.from_cryptography, X509Store().add_cert of root and intermediate,
       X509StoreContext(store, leaf).verify_certificate(): None when all
       return, else the class and text of what they raise; a chain that
       does not verify raises X509StoreContextError *)
  jwt_decode : string -> jwt_key -> bool -> jwt_result;  (* token, key, verify_aud *)
  b64url_uint : string -> Z + string;
    (* int.from_bytes(base64.urlsafe_b64decode(s), "big") *)
  rsa_public_key_ok : Z -> Z -> bool;         (* RSAPublicNumbers(e, n).public_key() *)
}.

(** [VtpmValidation.__init__] *)
Record VtpmValidation : Type := mkVtpmValidation {
  expected_issuer : string;
  oidc_endpoint : string;
  pki_endpoint : string;
}.

Definition default_validation : VtpmValidation :=
  mkVtpmValidation "https://confidentialcomputing.googleapis.com"
    "/.well-known/openid-configuration" "/.well-known/confidential_space_root.crt".

Definition ALGO : string := "RS256".
Definition CERT_HASH_ALGO : string := "sha256".
Definition CERT_COUNT : nat := 3.
Definition CERT_FINGERPRINT : string :=
  "B9:51:20:74:2C:24:E3:AA:34:04:2E:1C:3B:A3:AA:D2:8B:21:23:21".

Fixpoint bytes_eqb (a b : list Z) : bool :=
  match a, b with
  | [], [] => true
  | x :: a', y :: b' => Z.eqb x y && bytes_eqb a' b'
  | _, _ => false
  end.

(** [jwt.get_unverified_header]: decode the header segment, which must
    be a JSON object whose ["kid"], when present, is a string. *)
Definition get_unverified_header (w : World) (token : string) : outcome json :=
  match jwt_header_segment w token with
  | None => Raise (mkExn DecodeError [Lit "Invalid header padding"])
  | Some (JObj kv) =>
      match assoc "kid" kv with
      | None | Some (JStr _) => Ok (JObj kv)
      | Some _ => Raise (mkExn InvalidTokenError
                           [Lit "Key ID header parameter must be a string"])
      end
  | Some _ => Raise (mkExn DecodeError [Lit "Invalid header string: must be a json object"])
  end.

(** [VtpmValidation._get_well_known_file] *)
Definition _get_well_known_file (w : World) (expected_issuer well_known_path : string)
    : M Response :=
  let u := String.append expected_issuer well_known_path in
  emit (EvHttpGet u) ;;
  match http_get w u with
  | None => raise (mkExn RequestException [Lit "Connection error"])
  | Some response =>
      let valid_status_code := 200 in
      if status_code response =? valid_status_code then ret response
      else raise (mkExn HTTPError [Lit "Failed to fetch well known file: ";
                                   Num (status_code response)])
  end.

(** [response.json()] *)
Definition response_json (r : Response) : M json :=
  match json_body r with
  | Some j => ret j
  | None => raise (mkExn JSONDecodeError [Lit "Expecting value"])
  end.

(** [VtpmValidation._fetch_jwks]; [uri] is whatever the metadata gave. *)
Definition _fetch_jwks (w : World) (uri : json) : M json :=
  match uri with
  | JStr u =>
      emit (EvHttpGet u) ;;
      match http_get w u with
      | None => raise (mkExn RequestException [Lit "Connection error"])
      | Some response =>
          let valid_status_code := 200 in
          if status_code response =? valid_status_code then response_json response
          else raise (mkExn HTTPError [Lit "Failed to fetch JWKS: ";
                                       Num (status_code response)])
      end
  | _ => raise (mkExn RequestException [Lit "Invalid URL: No scheme supplied"])
  end.

(** [int.from_bytes(base64.urlsafe_b64decode(jwk[k] + "=="), "big")] *)
Definition jwk_uint (w : World) (jwk : json) (k : string) : M Z :=
  let! v := lift (subscript jwk k) in
  match v with
  | JStr s =>
      match b64url_uint w (String.append s "==") with
      | inl z => ret z
      | inr m => raise (mkExn ValueError [Text m])
      end
  | _ => raise (mkExn TypeError [Lit "can only concatenate str to str"])
  end.

(** [VtpmValidation._jwk_to_rsa_key] *)
Definition _jwk_to_rsa_key (w : World) (jwk : json) : M jwt_key :=
  let! n := jwk_uint w jwk "n" in
  let! e := jwk_uint w jwk "e" in
  if rsa_public_key_ok w e n then ret (KeyRsa e n)
  else raise (mkExn ValueError [Lit "Invalid RSA public numbers"]).

(** The key loop of [_decode_and_validate_oidc]:
    [for key in jwks["keys"]: if key.get("kid") == unverified_header["kid"]: ...]. *)
Fixpoint find_rsa_key (w : World) (unverified_header : json) (keys : list json)
    : M (option jwt_key) :=
  match keys with
  | [] => ret None
  | key :: rest =>
      let! key_kid := lift (py_get key "kid") in
      let! header_kid := lift (subscript unverified_header "kid") in
      if json_eqb key_kid header_kid then
        let! _logged := lift (subscript key "kid") in
        let! rsa_key := _jwk_to_rsa_key w key in
        ret (Some rsa_key)
      else find_rsa_key w unverified_header rest
  end.

(** [jwt.decode(token, key, algorithms=[ALGO], ...)] *)
Definition run_jwt_decode (w : World) (token : string) (k : jwt_key) (verify_aud : bool)
    : M json :=
  emit EvJwtDecode ;;
  match jwt_decode w token k verify_aud with
  | JwtClaims c => ret c
  | JwtError c m => raise (mkExn c [Text m])
  end.

(** [VtpmValidation._decode_and_validate_oidc] *)
Definition _decode_and_validate_oidc (w : World) (self : VtpmValidation) (token : string)
    (unverified_header : json) : M json :=
  let! resp := _get_well_known_file w (expected_issuer self) (oidc_endpoint self) in
  let! res := response_json resp in
  let! jwks_uri := lift (subscript res "jwks_uri") in
  let! jwks := _fetch_jwks w jwks_uri in
  let! keys := lift (subscript jwks "keys") in
  let! entries := lift (py_iter keys) in
  let! rsa_key := find_rsa_key w unverified_header entries in
  match rsa_key with
  | None => raise (mkExn VtpmValidationError
                     [Lit "Unable to find appropriate key id (kid) in header"])
  | Some k =>
      try_except (run_jwt_decode w token k false)
        (fun e =>
           if isinstance (cls e) ExpiredSignatureError then
             raise (mkExn SignatureValidationError [Lit "Token has expired"])
           else if isinstance (cls e) InvalidTokenError then
             raise (mkExn VtpmValidationError [Lit "Token is invalid"])
           else raise (mkExn VtpmValidationError [Lit "Unexpected error during validation"]))
  end.

(** [format(b, "02x")] of a byte. *)
Definition hex_digit (n : Z) : ascii :=
  if n <? 10 then ascii_of_nat (Z.to_nat (48 + n)) else ascii_of_nat (Z.to_nat (87 + n)).

Definition format_02x (b : Z) : string :=
  String (hex_digit (b / 16)) (String (hex_digit (b mod 16)) EmptyString).

(** [sep.join(parts)] *)
Fixpoint py_join (sep : string) (parts : list string) : string :=
  match parts with
  | [] => ""
  | [p] => p
  | p :: r => String.append p (String.append sep (py_join sep r))
  end.

(** [str.upper()] on ASCII text. *)
Definition ascii_upper (c : ascii) : ascii :=
  let n := nat_of_ascii c in
  if (97 <=? n)%nat && (n <=? 122)%nat then ascii_of_nat (n - 32) else c.

Definition py_upper (s : string) : string := string_of_list_ascii (map ascii_upper (list_ascii_of_string s)).

(** [":".join(format(b, "02x") for b in fingerprint).upper()] *)
Definition fingerprint_hex (fingerprint : list Z) : string :=
  py_upper (py_join ":" (map format_02x fingerprint)).

(** [VtpmValidation._decode_der_certificate] *)
Definition _decode_der_certificate (w : World) (cert_str : json) : M Certificate :=
  emit (EvDecodeCert cert_str) ;;
  match cert_str with
  | JStr s =>
      match load_der_b64 w s with
      | inl c => ret c
      | inr m => raise (mkExn CertificateParsingError [Lit "Failed to decode certificate: "; Text m])
      end
  | _ => raise (mkExn CertificateParsingError
                  [Lit "Failed to decode certificate: "; Lit "expected string or bytes-like object"])
  end.

(** [VtpmValidation._extract_and_validate_certificates] *)
Definition _extract_and_validate_certificates (w : World) (headers : json)
    : M PKICertificates :=
  let! x5c_headers := lift (py_get headers "x5c") in
  let! bad := (if negb (py_truthy x5c_headers) then ret true
               else let! n := lift (py_len x5c_headers) in ret (negb (Nat.eqb n CERT_COUNT))) in
  if bad then raise (mkExn VtpmValidationError [Lit "Invalid x5c certificates in header"])
  else
    try_except
      (let! items := lift (py_iter x5c_headers) in
       let! certs := mapM (_decode_der_certificate w) items in
       match certs with
       | c0 :: c1 :: c2 :: _ => ret (mkPKICertificates c0 c1 c2)
       | _ => raise (mkExn IndexError [Lit "list index out of range"])
       end)
      (fun e =>
         if isinstance (cls e) ValueError || isinstance (cls e) TypeError then
           raise (mkExn CertificateParsingError (Lit "Failed to parse certificates: " :: msg e))
         else raise e).

(** [VtpmValidation._validate_leaf_certificate]; as in
    [_check_nonce_length], the second line of the second message is a
    discarded statement. *)
Definition _validate_leaf_certificate (leaf_cert : Certificate) : M unit :=
  match signature_hash_algorithm leaf_cert with
  | None => raise (mkExn SignatureValidationError [Lit "No signature hash algorithm found"])
  | Some name =>
      if negb (String.eqb name CERT_HASH_ALGO) then
        raise (mkExn SignatureValidationError [Lit "Invalid signature algorithm: "])
      else if negb (public_key_is_rsa leaf_cert) then
        raise (mkExn SignatureValidationError [Lit "Leaf certificate must use RSA public key"])
      else ret tt
  end.

(** [VtpmValidation._compare_root_certificates] *)
Definition _compare_root_certificates (w : World) (token_root_cert root_cert : Certificate)
    : M unit :=
  let fingerprint1 := sha256 w (tbs_certificate_bytes root_cert) in
  let fingerprint2 := sha256 w (tbs_certificate_bytes token_root_cert) in
  if negb (bytes_eqb fingerprint1 fingerprint2) then
    raise (mkExn VtpmValidationError [Lit "Root certificate fingerprint mismatch"])
  else ret tt.

(** [VtpmValidation._verify_certificate_chain] *)
Definition _verify_certificate_chain (w : World) (certificates : PKICertificates) : M unit :=
  emit EvChainVerify ;;
  match chain_verify w (leaf_cert certificates) (intermediate_cert certificates)
          (root_cert certificates) with
  | None => ret tt
  | Some (c, m) =>
      if isinstance c OpenSSLError then
        raise (mkExn InvalidCertificateChainError
                 [Lit "Certificate chain verification failed: "; Text m])
      else raise (mkExn c [Text m])
  end.

(** [VtpmValidation._is_certificate_valid] *)
Definition _is_certificate_valid (cert : Certificate) (current_time : Z) : bool :=
  (not_valid_before_utc cert <=? current_time) && (current_time <=? not_valid_after_utc cert).

Definition named_certificates (certificates : PKICertificates) : list (string * Certificate) :=
  [("Leaf", leaf_cert certificates);
   ("Intermediate", intermediate_cert certificates);
   ("Root", root_cert certificates)].

(** [VtpmValidation._check_certificate_validity] *)
Definition _check_certificate_validity (w : World) (certificates : PKICertificates) : M unit :=
  let current_time := now w in
  (fix loop (cs : list (string * Certificate)) : M unit :=
     match cs with
     | [] => ret tt
     | (cert_name, cert) :: rest =>
         if negb (_is_certificate_valid cert current_time) then
           raise (mkExn InvalidCertificateChainError
                    [Text cert_name; Lit " certificate is not valid"])
         else loop rest
     end) (named_certificates certificates).

(** [VtpmValidation._decode_and_validate_pki] *)
Definition _decode_and_validate_pki (w : World) (self : VtpmValidation) (token : string)
    (unverified_header : json) : M json :=
  let! res := _get_well_known_file w (expected_issuer self) (pki_endpoint self) in
  let! root_cert := (match load_pem w (content res) with
                     | inl c => ret c
                     | inr m => raise (mkExn ValueError [Text m])
                     end) in
  let fingerprint := sha1 w (der_bytes root_cert) in
  let calculated_fingerprint := fingerprint_hex fingerprint in
  if negb (String.eqb calculated_fingerprint CERT_FINGERPRINT) then
    raise (mkExn VtpmValidationError
             [Lit "Root certificate fingerprint does not match expected fingerprint."])
  else
    try_except
      (let! certs := _extract_and_validate_certificates w unverified_header in
       _validate_leaf_certificate (leaf_cert certs) ;;
       _compare_root_certificates w (Validation.root_cert certs) root_cert ;;
       _check_certificate_validity w certs ;;
       _verify_certificate_chain w certs ;;
       run_jwt_decode w token (KeyPem (leaf_cert certs)) true)
      (fun e =>
         if isinstance (cls e) InvalidKey || isinstance (cls e) InvalidTokenError then
           raise (mkExn VtpmValidationError (Lit "Token signature validation failed: " :: msg e))
         else
           raise (mkExn VtpmValidationError (Lit "Unexpected error during validation: " :: msg e))).

(** [VtpmValidation.validate_token] *)
Definition validate_token (w : World) (self : VtpmValidation) (token : string) : M json :=
  let! unverified_header := lift (get_unverified_header w token) in
  let! alg := lift (py_get unverified_header "alg") in
  if negb (json_eqb alg (JStr ALGO)) then
    raise (mkExn VtpmValidationError [Lit "Invalid algorithm: got "; Val alg; Lit ", "])
  else
    let! x5c := lift (py_get unverified_header "x5c") in
    if py_truthy x5c then _decode_and_validate_pki w self token unverified_header
    else _decode_and_validate_oidc w self token unverified_header.

End Validation.

(** ** Concrete inputs *)

Module Samples.
Import Validation.

(** The SHA-1 digest whose rendering is [CERT_FINGERPRINT]. *)
Definition pinned_sha1 : list Z :=
  [185; 81; 32; 116; 44; 36; 227; 170; 52; 4; 46; 28; 59; 163; 170; 210; 139; 33; 35; 33].

Definition root0 : Certificate := mkCert [1] [11] 0 100 (Some "sha256") false.
Definition leaf0 : Certificate := mkCert [2] [12] 0 100 (Some "sha256") true.
Definition inter0 : Certificate := mkCert [3] [13] 0 100 (Some "sha256") false.
(** The intermediate certificate with its not-after date in the past. *)
Definition inter_expired : Certificate := mkCert [3] [13] 0 40 (Some "sha256") false.

Definition ok_response (body : option json) : Response := mkResponse 200 [] body.

Definition issuer : string := expected_issuer default_validation.
Definition oidc_url : string := String.append issuer (oidc_endpoint default_validation).
Definition pki_url : string := String.append issuer (pki_endpoint default_validation).
Definition jwks_url : string := "https://www.googleapis.com/service_accounts/v1/metadata/jwk/signer".

(** A world whose token header is [hdr], whose intermediate certificate
    is [inter], whose key set is [keys] and where [metadata_status] and
    [jwks_status] are the HTTP statuses of the two OIDC fetches; the
    instant is 50. *)
Definition world (hdr : json) (inter : Certificate) (metadata_status jwks_status : Z)
    (keys : json) : World :=
  mkWorld
    (fun u =>
       if String.eqb u oidc_url then
         Some (mkResponse metadata_status [] (Some (JObj [("jwks_uri", JStr jwks_url)])))
       else if String.eqb u jwks_url then
         Some (mkResponse jwks_status [] (Some (JObj [("keys", keys)])))
       else if String.eqb u pki_url then Some (ok_response None)
       else None)
    50
    (fun _ => Some hdr)
    (fun _ => inl root0)
    (fun s => if String.eqb s "L" then inl leaf0
              else if String.eqb s "I" then inl inter
              else if String.eqb s "R" then inl root0
              else inr "Incorrect padding")
    (fun b => if bytes_eqb b [1] then pinned_sha1 else [0])
    (fun b => b)
    (fun _ _ _ => None)
    (fun _ _ _ => JwtClaims (JObj [("iss", JStr issuer)]))
    (fun _ => inl 65537)
    (fun _ _ => true).

Definition pki_header : json :=
  JObj [("alg", JStr "RS256"); ("x5c", JList [JStr "L"; JStr "I"; JStr "R"])].

Definition oidc_header (kid : string) : json :=
  JObj [("alg", JStr "RS256"); ("kid", JStr kid)].

Definition key_entry (kid : string) : json :=
  JObj [("kid", JStr kid); ("n", JStr "AQAB"); ("e", JStr "AQAB")].

Definition dict_get (kv : list (string * json)) (k : string) : json :=
  match assoc k kv with Some v => v | None => JNull end.

Definition expired_world : World :=
  world pki_header inter_expired 200 200 (JList []).

Definition bad_root_world : World :=
  let w := world pki_header inter0 200 200 (JList []) in
  mkWorld (http_get w) (now w) (jwt_header_segment w) (load_pem w) (load_der_b64 w)
    (fun _ => [0; 1]) (sha256 w) (chain_verify w) (jwt_decode w) (b64url_uint w)
    (rsa_public_key_ok w).


(** [w] with the chain verification outcome replaced by [r]. *)
Definition with_chain (w : World) (r : option (exc_class * string)) : World :=
  mkWorld (http_get w) (now w) (jwt_header_segment w) (load_pem w) (load_der_b64 w)
    (sha1 w) (sha256 w) (fun _ _ _ => r) (jwt_decode w) (b64url_uint w)
    (rsa_public_key_ok w).

(** [w] where [jwt.decode] returns [r]. *)
Definition with_jwt (w : World) (r : jwt_result) : World :=
  mkWorld (http_get w) (now w) (jwt_header_segment w) (load_pem w) (load_der_b64 w)
    (sha1 w) (sha256 w) (chain_verify w) (fun _ _ _ => r) (b64url_uint w)
    (rsa_public_key_ok w).

Definition x5c_header (l : list string) : list (string * json) :=
  [("alg", JStr "RS256"); ("x5c", JList (map JStr l))].

Definition x5c_world (l : list string) : World :=
  world (JObj (x5c_header l)) inter0 200 200 (JList []).

(** [w] where every HTTP GET answers [r]. *)
Definition with_http (w : World) (r : option Response) : World :=
  mkWorld (fun _ => r) (now w) (jwt_header_segment w) (load_pem w) (load_der_b64 w)
    (sha1 w) (sha256 w) (chain_verify w) (jwt_decode w) (b64url_uint w)
    (rsa_public_key_ok w).

(** A key set entry with key id [kid] but no modulus. *)
Definition key_entry_no_n (kid : string) : json :=
  JObj [("kid", JStr kid); ("e", JStr "AQAB")].

(** The OIDC sample world whose key set is [keys]. *)
Definition oidc_world (kid : string) (keys : list json) : World :=
  world (oidc_header kid) inter0 200 200 (JList keys).

(** [w] whose token header segment decodes to [h]. *)
Definition with_header (w : World) (h : option json) : World :=
  mkWorld (http_get w) (now w) (fun _ => h) (load_pem w) (load_der_b64 w)
    (sha1 w) (sha256 w) (chain_verify w) (jwt_decode w) (b64url_uint w)
    (rsa_public_key_ok w).

(** Attestation client inputs. *)

(** The UTF-8 byte length of a nonce is in [10, 74]. *)
Definition nonce_in_range (n : Attestation.pystr) : Prop :=
  exists b, Attestation.utf8_encode n = Some b /\ 10 <= Z.of_nat (length b) <= 74.

Definition ascii_cps (s : string) : Attestation.pystr :=
  map (fun c => Z.of_nat (nat_of_ascii c)) (list_ascii_of_string s).

Definition nonce9 : Attestation.pystr := ascii_cps "abcdefghi".
Definition nonce10 : Attestation.pystr := ascii_cps "abcdefghij".

Definition failing_socket_world : Attestation.SocketWorld :=
  Attestation.mkSocketWorld (fun _ => true) true
    (Some (Attestation.mkHttpResponse 500 "Internal Server Error" [] false)).

End Samples.

(** ** Monad facts *)

Ltac monad := unfold bind, lift, ret, raise, emit, try_except.

Lemma bind_ok {A B} (m : M A) (k : A -> M B) (t : list event) (a : A) (t' : list event) :
  m t = (Ok a, t') -> bind m k t = k a t'.
Proof. intro H. unfold bind. now rewrite H. Qed.

Lemma bind_raise {A B} (m : M A) (k : A -> M B) (t : list event) (e : exn) (t' : list event) :
  m t = (Raise e, t') -> bind m k t = (Raise e, t').
Proof. intro H. unfold bind. now rewrite H. Qed.

Lemma try_raise {A} (m : M A) (h : exn -> M A) (t : list event) (e : exn) (t' : list event) :
  m t = (Raise e, t') -> try_except m h t = h e t'.
Proof. intro H. unfold try_except. now rewrite H. Qed.

Lemma lift_ok {A} (o : outcome A) (a : A) (t : list event) :
  o = Ok a -> lift o t = (Ok a, t).
Proof. intros ->. reflexivity. Qed.


(** ** Properties *)

Module Props.
Import Validation Samples.

Lemma json_eqb_str (v : json) (s : string) : json_eqb v (JStr s) = true <-> v = JStr s.
Proof.
  destruct v; simpl; split; intro H; try discriminate.
  - apply String.eqb_eq in H; now subst.
  - inversion H; subst; apply String.eqb_refl.
Qed.

Example fingerprint_hex_pinned : fingerprint_hex Samples.pinned_sha1 = CERT_FINGERPRINT.
Proof. reflexivity. Qed.

Example pki_sample_accepted :
  fst (validate_token (Samples.world Samples.pki_header Samples.inter0 200 200 (JList []))
         default_validation "tok" [])
  = Ok (JObj [("iss", JStr Samples.issuer)]).
Proof. vm_compute. reflexivity. Qed.

(** C4: a header whose ["alg"] is not ["RS256"] is rejected with a
    [VtpmValidationError] ("Invalid algorithm: got ...") and nothing is
    done before: no fetch, no certificate decoding, no key or signature
    work (the trace is unchanged), whichever scheme the header selects. *)
Theorem C4_unsupported_algorithm_rejected_first (w : World) (self : VtpmValidation)
    (token : string) (kv : list (string * json)) (t : list event) :
  get_unverified_header w token = Ok (JObj kv) ->
  dict_get kv "alg" <> JStr ALGO ->
  validate_token w self token t =
    (Raise (mkExn VtpmValidationError
              [Lit "Invalid algorithm: got "; Val (dict_get kv "alg"); Lit ", "]), t).
Proof.
  intros Hh Halg.
  unfold validate_token, bind, lift, ret, raise. rewrite Hh. cbn.
  fold (dict_get kv "alg").
  destruct (json_eqb (dict_get kv "alg") (JStr ALGO)) eqn:E.
  - apply json_eqb_str in E. contradiction.
  - reflexivity.
Qed.

Lemma C4_witness :
  get_unverified_header (Samples.world (JObj [("alg", JStr "HS256"); ("x5c", JList [JStr "L"])])
                           Samples.inter0 200 200 (JList [])) "tok"
    = Ok (JObj [("alg", JStr "HS256"); ("x5c", JList [JStr "L"])]) /\
  validate_token (Samples.world (JObj [("alg", JStr "HS256"); ("x5c", JList [JStr "L"])])
                    Samples.inter0 200 200 (JList [])) default_validation "tok" []
    = (Raise (mkExn VtpmValidationError
                [Lit "Invalid algorithm: got "; Val (JStr "HS256"); Lit ", "]), []).
Proof.
  split; [reflexivity |].
  apply (C4_unsupported_algorithm_rejected_first _ _ _
           [("alg", JStr "HS256"); ("x5c", JList [JStr "L"])]);
    [reflexivity | cbn; discriminate].
Defined.


Lemma dict_get_py_get (kv : list (string * json)) (k : string) :
  py_get (JObj kv) k = Ok (dict_get kv k).
Proof. reflexivity. Qed.

(** C3: on the PKI path, the root certificate fetched from
    [{issuer}/.well-known/confidential_space_root.crt] is rendered as
    colon-separated uppercase hex of its SHA-1 digest and compared with
    [CERT_FINGERPRINT]; on a mismatch [validate_token] raises a
    [VtpmValidationError], and the only action performed is that fetch:
    no certificate of the token's x5c header has been decoded. *)
Theorem C3_root_fingerprint_mismatch_rejects_first (w : World) (self : VtpmValidation)
    (token : string) (kv : list (string * json)) (t : list event)
    (resp : Response) (root : Certificate) :
  get_unverified_header w token = Ok (JObj kv) ->
  dict_get kv "alg" = JStr ALGO ->
  py_truthy (dict_get kv "x5c") = true ->
  http_get w (String.append (expected_issuer self) (pki_endpoint self)) = Some resp ->
  status_code resp = 200 ->
  load_pem w (content resp) = inl root ->
  fingerprint_hex (sha1 w (der_bytes root)) <> CERT_FINGERPRINT ->
  validate_token w self token t =
    (Raise (mkExn VtpmValidationError
              [Lit "Root certificate fingerprint does not match expected fingerprint."]),
     t ++ [EvHttpGet (String.append (expected_issuer self) (pki_endpoint self))]).
Proof.
  intros Hh Halg Hx5c Hget Hst Hpem Hfp.
  unfold validate_token. monad. rewrite Hh, !dict_get_py_get, Halg. cbn.
  rewrite Hx5c. unfold _decode_and_validate_pki, _get_well_known_file. monad.
  rewrite Hget, Hst. cbn. rewrite Hpem.
  destruct (String.eqb (fingerprint_hex (sha1 w (der_bytes root))) CERT_FINGERPRINT) eqn:E.
  - apply String.eqb_eq in E. contradiction.
  - reflexivity.
Qed.

Lemma C3_witness :
  validate_token bad_root_world default_validation "tok" []
    = (Raise (mkExn VtpmValidationError
                [Lit "Root certificate fingerprint does not match expected fingerprint."]),
       [EvHttpGet Samples.pki_url]).
Proof.
  apply (C3_root_fingerprint_mismatch_rejects_first _ _ _
           [("alg", JStr "RS256"); ("x5c", JList [JStr "L"; JStr "I"; JStr "R"])]
           [] (Samples.ok_response None) Samples.root0);
    try reflexivity.
  vm_compute. discriminate.
Defined.


Lemma bytes_eqb_refl (b : list Z) : bytes_eqb b b = true.
Proof. induction b as [|x b IH]; simpl; [reflexivity | now rewrite Z.eqb_refl, IH]. Qed.

(** The validity loop stops at the first certificate outside its window. *)
Lemma check_validity_raises (w : World) (certs : PKICertificates) (t : list event) :
  (exists nm cert, In (nm, cert) (named_certificates certs) /\
                   _is_certificate_valid cert (now w) = false) ->
  exists nm cert,
    In (nm, cert) (named_certificates certs) /\
    _is_certificate_valid cert (now w) = false /\
    _check_certificate_validity w certs t =
      (Raise (mkExn InvalidCertificateChainError [Text nm; Lit " certificate is not valid"]), t).
Proof.
  intros (nm & cert & Hin & Hinv).
  destruct certs as [l i r]. unfold _check_certificate_validity, named_certificates in *.
  cbn in *. monad.
  destruct (_is_certificate_valid l (now w)) eqn:El;
    [destruct (_is_certificate_valid i (now w)) eqn:Ei;
     [destruct (_is_certificate_valid r (now w)) eqn:Er |] |]; cbn.
  - exfalso. destruct Hin as [H|[H|[H|H]]]; try inversion H; subst; congruence.
  - exists "Root", r. cbn. auto 6.
  - exists "Intermediate", i. cbn. auto 6.
  - exists "Leaf", l. cbn. auto 6.
Qed.

(** C1 (failing input): a token whose fetched root matches the pinned
    fingerprint, whose chain parses, whose leaf and root checks pass and
    whose intermediate certificate expired before the current instant is
    rejected with a plain [VtpmValidationError], not with an
    [InvalidCertificateChainError]: the [except Exception] clause of
    [_decode_and_validate_pki] re-raises the chain error as its base
    class. *)
Lemma C1_intermediate_expired_counterexample :
  fingerprint_hex (sha1 expired_world (der_bytes Samples.root0)) = CERT_FINGERPRINT /\
  fst (_extract_and_validate_certificates expired_world Samples.pki_header [])
    = Ok (mkPKICertificates Samples.leaf0 Samples.inter_expired Samples.root0) /\
  not_valid_after_utc Samples.inter_expired < now expired_world /\
  fst (validate_token expired_world default_validation "tok" [])
    = Raise (mkExn VtpmValidationError
               [Lit "Unexpected error during validation: "; Text "Intermediate";
                Lit " certificate is not valid"]) /\
  VtpmValidationError <> InvalidCertificateChainError.
Proof.
  split; [reflexivity |]. split; [reflexivity |]. split; [vm_compute; reflexivity |].
  split; [vm_compute; reflexivity | discriminate].
Qed.

Lemma well_known_ok (w : World) (iss path : string) (t : list event) (resp : Response) :
  http_get w (String.append iss path) = Some resp -> status_code resp = 200 ->
  _get_well_known_file w iss path t = (Ok resp, t ++ [EvHttpGet (String.append iss path)]).
Proof.
  intros Hg Hs. unfold _get_well_known_file. monad. rewrite Hg, Hs. reflexivity.
Qed.

Lemma extract_three (w : World) (kv : list (string * json)) (t : list event)
    (a b c : string) (l i r : Certificate) :
  dict_get kv "x5c" = JList [JStr a; JStr b; JStr c] ->
  load_der_b64 w a = inl l -> load_der_b64 w b = inl i -> load_der_b64 w c = inl r ->
  _extract_and_validate_certificates w (JObj kv) t =
    (Ok (mkPKICertificates l i r),
     t ++ [EvDecodeCert (JStr a); EvDecodeCert (JStr b); EvDecodeCert (JStr c)]).
Proof.
  intros Hx Ha Hb Hc. unfold _extract_and_validate_certificates.
  rewrite (bind_ok _ _ _ _ _ (lift_ok _ _ _ (dict_get_py_get kv "x5c"))), Hx.
  unfold _decode_der_certificate. monad. cbn. rewrite Ha, Hb, Hc. cbn.
  now rewrite <- !app_assoc.
Qed.

Lemma validate_leaf_ok (leaf : Certificate) (t : list event) :
  signature_hash_algorithm leaf = Some CERT_HASH_ALGO -> public_key_is_rsa leaf = true ->
  _validate_leaf_certificate leaf t = (Ok tt, t).
Proof. intros Hs Hr. unfold _validate_leaf_certificate. rewrite Hs, Hr. reflexivity. Qed.

Lemma compare_root_ok (w : World) (token_root root : Certificate) (t : list event) :
  sha256 w (tbs_certificate_bytes root) = sha256 w (tbs_certificate_bytes token_root) ->
  _compare_root_certificates w token_root root t = (Ok tt, t).
Proof. intro H. unfold _compare_root_certificates. rewrite H, bytes_eqb_refl. reflexivity. Qed.

(** C1 (code bug): let the fetched root match the pinned fingerprint,
    the x5c header hold three certificates that decode, the leaf declare
    sha256 and an RSA key, and the embedded root have the fetched root's
    TBS hash.  If the current instant lies outside the window of one of
    the three certificates, [validate_token] fails before the chain is
    verified and the signature checked, with an exception whose message
    names a certificate (Leaf, Intermediate or Root) outside its window;
    but its class is exactly [VtpmValidationError], not an
    [InvalidCertificateChainError]: the [except Exception] clause of
    [_decode_and_validate_pki] re-raises the [InvalidCertificateChainError]
    of [_check_certificate_validity] as its base class, although the
    docstrings of [_decode_and_validate_pki] and [validate_token] list
    [InvalidCertificateChainError] among the errors raised. *)
Theorem C1_validity_violation_fails (w : World) (self : VtpmValidation) (token : string)
    (kv : list (string * json)) (t : list event) (resp : Response)
    (root : Certificate) (a b c : string) (leaf inter rootc : Certificate) :
  get_unverified_header w token = Ok (JObj kv) ->
  dict_get kv "alg" = JStr ALGO ->
  dict_get kv "x5c" = JList [JStr a; JStr b; JStr c] ->
  http_get w (String.append (expected_issuer self) (pki_endpoint self)) = Some resp ->
  status_code resp = 200 ->
  load_pem w (content resp) = inl root ->
  fingerprint_hex (sha1 w (der_bytes root)) = CERT_FINGERPRINT ->
  load_der_b64 w a = inl leaf ->
  load_der_b64 w b = inl inter ->
  load_der_b64 w c = inl rootc ->
  signature_hash_algorithm leaf = Some CERT_HASH_ALGO ->
  public_key_is_rsa leaf = true ->
  sha256 w (tbs_certificate_bytes root) = sha256 w (tbs_certificate_bytes rootc) ->
  (exists nm cert, In (nm, cert) (named_certificates (mkPKICertificates leaf inter rootc)) /\
                   _is_certificate_valid cert (now w) = false) ->
  exists e t',
    validate_token w self token t = (Raise e, t') /\
    cls e = VtpmValidationError /\
    isinstance (cls e) InvalidCertificateChainError = false /\
    (exists nm cert,
        In (nm, cert) (named_certificates (mkPKICertificates leaf inter rootc)) /\
        _is_certificate_valid cert (now w) = false /\ In (Text nm) (msg e)) /\
    t' = t ++ [EvHttpGet (String.append (expected_issuer self) (pki_endpoint self));
               EvDecodeCert (JStr a); EvDecodeCert (JStr b); EvDecodeCert (JStr c)].
Proof.
  intros Hh Halg Hx5c Hget Hst Hpem Hfp Ha Hb Hc Hsig Hrsa Htbs Hbad.
  set (u := String.append (expected_issuer self) (pki_endpoint self)).
  set (t1 := t ++ [EvHttpGet u]).
  set (t2 := t1 ++ [EvDecodeCert (JStr a); EvDecodeCert (JStr b); EvDecodeCert (JStr c)]).
  destruct (check_validity_raises w (mkPKICertificates leaf inter rootc) t2 Hbad)
    as (nm & cert & Hin & Hinv & Hchk).
  exists (mkExn VtpmValidationError
            (Lit "Unexpected error during validation: " ::
             [Text nm; Lit " certificate is not valid"])), t2.
  split.
  - unfold validate_token. rewrite (bind_ok _ _ _ _ _ (lift_ok _ _ _ Hh)).
    rewrite (bind_ok _ _ _ _ _ (lift_ok _ _ _ (dict_get_py_get kv "alg"))), Halg.
    cbn -[_decode_and_validate_pki _decode_and_validate_oidc].
    fold (dict_get kv "x5c"). rewrite Hx5c.
    cbn -[_decode_and_validate_pki].
    unfold _decode_and_validate_pki.
    rewrite (bind_ok _ _ _ _ _ (well_known_ok w _ _ t resp Hget Hst)). fold u t1.
    rewrite Hpem. cbn -[try_except]. rewrite Hfp, String.eqb_refl. cbn -[try_except].
    rewrite (try_raise _ _ _ (mkExn InvalidCertificateChainError
                                 [Text nm; Lit " certificate is not valid"]) t2).
    + reflexivity.
    + rewrite (bind_ok _ _ _ _ _ (extract_three w kv t1 a b c leaf inter rootc Hx5c Ha Hb Hc)).
      fold t2.
      rewrite (bind_ok _ _ _ _ _ (validate_leaf_ok leaf t2 Hsig Hrsa)).
      rewrite (bind_ok _ _ _ _ _ (compare_root_ok w rootc root t2 Htbs)).
      rewrite (bind_raise _ _ _ _ _ Hchk). reflexivity.
  - split; [reflexivity |]. split; [reflexivity |]. split.
    + exists nm, cert. repeat split; auto. cbn. auto.
    + unfold t2, t1. now rewrite <- !app_assoc.
Qed.

Lemma C1_witness :
  exists e t',
    validate_token expired_world default_validation "tok" [] = (Raise e, t') /\
    cls e = VtpmValidationError /\
    isinstance (cls e) InvalidCertificateChainError = false /\
    (exists nm cert,
        In (nm, cert) (named_certificates
                         (mkPKICertificates Samples.leaf0 Samples.inter_expired Samples.root0)) /\
        _is_certificate_valid cert (now expired_world) = false /\ In (Text nm) (msg e)) /\
    t' = [] ++ [EvHttpGet (String.append (expected_issuer default_validation)
                                         (pki_endpoint default_validation));
                EvDecodeCert (JStr "L"); EvDecodeCert (JStr "I"); EvDecodeCert (JStr "R")].
Proof.
  apply (C1_validity_violation_fails expired_world default_validation "tok"
           [("alg", JStr "RS256"); ("x5c", JList [JStr "L"; JStr "I"; JStr "R"])] []
           (Samples.ok_response None) Samples.root0 "L" "I" "R"
           Samples.leaf0 Samples.inter_expired Samples.root0);
    try reflexivity.
  exists "Intermediate", Samples.inter_expired. split; [cbn; auto | reflexivity].
Defined.

(** [validate_token] after the algorithm check: the scheme is chosen by
    the truthiness of the header's ["x5c"] entry alone. *)
Lemma validate_token_dispatch (w : World) (self : VtpmValidation) (token : string)
    (kv : list (string * json)) (t : list event) :
  get_unverified_header w token = Ok (JObj kv) ->
  dict_get kv "alg" = JStr ALGO ->
  validate_token w self token t =
    (if py_truthy (dict_get kv "x5c")
     then _decode_and_validate_pki w self token (JObj kv) t
     else _decode_and_validate_oidc w self token (JObj kv) t).
Proof.
  intros Hh Halg. unfold validate_token.
  rewrite (bind_ok _ _ _ _ _ (lift_ok _ _ _ Hh)).
  rewrite (bind_ok _ _ _ _ _ (lift_ok _ _ _ (dict_get_py_get kv "alg"))), Halg.
  cbn -[_decode_and_validate_pki _decode_and_validate_oidc].
  fold (dict_get kv "x5c"). now destruct (py_truthy (dict_get kv "x5c")).
Qed.

Lemma py_truthy_false (v : json) :
  py_truthy v = false <-> In v [JNull; JBool false; JNum 0; JStr ""; JList []; JObj []].
Proof.
  split.
  - destruct v as [|[]|z|s0|l|kv]; cbn; intro H; try discriminate; auto.
    + apply negb_false_iff, Z.eqb_eq in H. subst. auto 6.
    + apply negb_false_iff, String.eqb_eq in H. subst. auto 6.
    + destruct l; [auto 6 | discriminate].
    + destruct kv; [auto 7 | discriminate].
  - cbn. intros [H|[H|[H|[H|[H|[H|[]]]]]]]; subst; reflexivity.
Qed.

(** C9 (counterexample): a header that carries an ["x5c"] entry holding
    the empty list is validated by the OIDC scheme: the first action is
    the fetch of the OpenID configuration, not of the root certificate. *)
Lemma C9_empty_x5c_goes_oidc :
  assoc "x5c" [("alg", JStr "RS256"); ("kid", JStr "k1"); ("x5c", JList [])] = Some (JList []) /\
  hd_error (snd (validate_token
                   (Samples.world (JObj [("alg", JStr "RS256"); ("kid", JStr "k1");
                                         ("x5c", JList [])])
                      Samples.inter0 200 200 (JList [Samples.key_entry "k1"]))
                   default_validation "tok" []))
    = Some (EvHttpGet Samples.oidc_url) /\
  Samples.oidc_url <> Samples.pki_url.
Proof.
  split; [reflexivity |]. split; [vm_compute; reflexivity | vm_compute; discriminate].
Qed.

(** C9 (amended): once the header passes the algorithm check,
    [validate_token] runs the PKI validation when the header's ["x5c"]
    value is truthy, and the OIDC validation otherwise, i.e. when it is
    missing or one of null, false, 0, the empty string, the empty list or
    the empty object; the choice is a function of the header alone, and
    the token is handed on unchanged. *)
Theorem C9_dispatch_on_truthy_x5c (w : World) (self : VtpmValidation) (token : string)
    (kv : list (string * json)) (t : list event) :
  get_unverified_header w token = Ok (JObj kv) ->
  dict_get kv "alg" = JStr ALGO ->
  validate_token w self token t =
    (if py_truthy (dict_get kv "x5c")
     then _decode_and_validate_pki w self token (JObj kv) t
     else _decode_and_validate_oidc w self token (JObj kv) t) /\
  (py_truthy (dict_get kv "x5c") = false <->
   In (dict_get kv "x5c") [JNull; JBool false; JNum 0; JStr ""; JList []; JObj []]).
Proof.
  intros Hh Halg. split.
  - now apply validate_token_dispatch.
  - apply py_truthy_false.
Qed.

Lemma C9_witness :
  validate_token (Samples.world Samples.pki_header Samples.inter0 200 200 (JList []))
    default_validation "tok" []
  = (if py_truthy (JList [JStr "L"; JStr "I"; JStr "R"])
     then _decode_and_validate_pki
            (Samples.world Samples.pki_header Samples.inter0 200 200 (JList []))
            default_validation "tok" Samples.pki_header []
     else _decode_and_validate_oidc
            (Samples.world Samples.pki_header Samples.inter0 200 200 (JList []))
            default_validation "tok" Samples.pki_header []) /\
  (py_truthy (JList [JStr "L"; JStr "I"; JStr "R"]) = false <->
   In (JList [JStr "L"; JStr "I"; JStr "R"]) [JNull; JBool false; JNum 0; JStr ""; JList []; JObj []]).
Proof.
  apply (C9_dispatch_on_truthy_x5c
           (Samples.world Samples.pki_header Samples.inter0 200 200 (JList []))
           default_validation "tok"
           [("alg", JStr "RS256"); ("x5c", JList [JStr "L"; JStr "I"; JStr "R"])] []);
    reflexivity.
Defined.

Lemma subscript_obj (kv : list (string * json)) (k : string) (v : json) :
  assoc k kv = Some v -> subscript (JObj kv) k = Ok v.
Proof. intro H. unfold subscript. now rewrite H. Qed.

Lemma response_json_ok (r : Response) (j : json) (t : list event) :
  json_body r = Some j -> response_json r t = (Ok j, t).
Proof. intro H. unfold response_json. now rewrite H. Qed.

Lemma fetch_jwks_ok (w : World) (u : string) (r : Response) (j : json) (t : list event) :
  http_get w u = Some r -> status_code r = 200 -> json_body r = Some j ->
  _fetch_jwks w (JStr u) t = (Ok j, t ++ [EvHttpGet u]).
Proof.
  intros Hg Hs Hj. unfold _fetch_jwks. monad. rewrite Hg, Hs. cbn.
  now apply response_json_ok.
Qed.

(** No entry of the key set carries the header's key id: the loop ends
    without a key and without any action. *)
Lemma find_rsa_key_none (w : World) (kv : list (string * json)) (k : string)
    (entries : list json) (t : list event) :
  assoc "kid" kv = Some (JStr k) ->
  Forall (fun e => exists ekv, e = JObj ekv /\ dict_get ekv "kid" <> JStr k) entries ->
  find_rsa_key w (JObj kv) entries t = (Ok None, t).
Proof.
  intros Hk Hall. induction Hall as [|e rest [ekv [-> Hne]] _ IH]; [reflexivity |].
  cbn [find_rsa_key].
  rewrite (bind_ok _ _ _ _ _ (lift_ok _ _ _ (dict_get_py_get ekv "kid"))).
  rewrite (bind_ok _ _ _ _ _ (lift_ok _ _ _ (subscript_obj kv "kid" _ Hk))).
  destruct (json_eqb (dict_get ekv "kid") (JStr k)) eqn:E.
  - apply json_eqb_str in E. contradiction.
  - exact IH.
Qed.

(** The OIDC path up to the key loop: both fetches succeed. *)
Lemma oidc_up_to_keys (w : World) (self : VtpmValidation) (token : string) (h : json)
    (t : list event) (mresp jresp : Response) (meta jw : list (string * json))
    (u : string) (entries : list json) :
  http_get w (String.append (expected_issuer self) (oidc_endpoint self)) = Some mresp ->
  status_code mresp = 200 -> json_body mresp = Some (JObj meta) ->
  assoc "jwks_uri" meta = Some (JStr u) ->
  http_get w u = Some jresp -> status_code jresp = 200 -> json_body jresp = Some (JObj jw) ->
  assoc "keys" jw = Some (JList entries) ->
  _decode_and_validate_oidc w self token h t =
    bind (find_rsa_key w h entries)
      (fun rsa_key =>
         match rsa_key with
         | None => raise (mkExn VtpmValidationError
                            [Lit "Unable to find appropriate key id (kid) in header"])
         | Some k =>
             try_except (run_jwt_decode w token k false)
               (fun e =>
                  if isinstance (cls e) ExpiredSignatureError then
                    raise (mkExn SignatureValidationError [Lit "Token has expired"])
                  else if isinstance (cls e) InvalidTokenError then
                    raise (mkExn VtpmValidationError [Lit "Token is invalid"])
                  else raise (mkExn VtpmValidationError
                                [Lit "Unexpected error during validation"]))
         end)
      (t ++ [EvHttpGet (String.append (expected_issuer self) (oidc_endpoint self));
             EvHttpGet u]).
Proof.
  intros Hm Hms Hmj Hu Hj Hjs Hjj Hk. unfold _decode_and_validate_oidc.
  rewrite (bind_ok _ _ _ _ _ (well_known_ok w _ _ t mresp Hm Hms)).
  rewrite (bind_ok _ _ _ _ _ (response_json_ok _ _ _ Hmj)).
  rewrite (bind_ok _ _ _ _ _ (lift_ok _ _ _ (subscript_obj meta "jwks_uri" _ Hu))).
  rewrite (bind_ok _ _ _ _ _ (fetch_jwks_ok w u jresp _ _ Hj Hjs Hjj)).
  rewrite (bind_ok _ _ _ _ _ (lift_ok _ _ _ (subscript_obj jw "keys" _ Hk))).
  rewrite (bind_ok _ _ _ _ _ (lift_ok (py_iter (JList entries)) entries _ eq_refl)).
  now rewrite <- app_assoc.
Qed.

(** C8: on the OIDC path, when the header's key id [k] matches no entry
    of the fetched key set, [validate_token] raises the key-not-found
    [VtpmValidationError] after the two fetches and nothing else. *)
Theorem C8_unknown_kid_rejected (w : World) (self : VtpmValidation) (token : string)
    (kv : list (string * json)) (t : list event) (k : string)
    (mresp jresp : Response) (meta jw : list (string * json)) (u : string)
    (entries : list json) :
  get_unverified_header w token = Ok (JObj kv) ->
  dict_get kv "alg" = JStr ALGO ->
  py_truthy (dict_get kv "x5c") = false ->
  assoc "kid" kv = Some (JStr k) ->
  http_get w (String.append (expected_issuer self) (oidc_endpoint self)) = Some mresp ->
  status_code mresp = 200 -> json_body mresp = Some (JObj meta) ->
  assoc "jwks_uri" meta = Some (JStr u) ->
  http_get w u = Some jresp -> status_code jresp = 200 -> json_body jresp = Some (JObj jw) ->
  assoc "keys" jw = Some (JList entries) ->
  Forall (fun e => exists ekv, e = JObj ekv /\ dict_get ekv "kid" <> JStr k) entries ->
  validate_token w self token t =
    (Raise (mkExn VtpmValidationError [Lit "Unable to find appropriate key id (kid) in header"]),
     t ++ [EvHttpGet (String.append (expected_issuer self) (oidc_endpoint self)); EvHttpGet u]).
Proof.
  intros Hh Halg Hx5c Hk Hm Hms Hmj Hu Hj Hjs Hjj Hkeys Hall.
  rewrite (validate_token_dispatch _ _ _ _ _ Hh Halg), Hx5c.
  rewrite (oidc_up_to_keys w self token _ t mresp jresp meta jw u entries
             Hm Hms Hmj Hu Hj Hjs Hjj Hkeys).
  rewrite (bind_ok _ _ _ _ _ (find_rsa_key_none w kv k entries _ Hk Hall)).
  reflexivity.
Qed.

Lemma C8_witness :
  validate_token (Samples.world (Samples.oidc_header "k9") Samples.inter0 200 200
                    (JList [Samples.key_entry "k1"; Samples.key_entry "k2"]))
    default_validation "tok" []
  = (Raise (mkExn VtpmValidationError [Lit "Unable to find appropriate key id (kid) in header"]),
     [] ++ [EvHttpGet (String.append (expected_issuer default_validation)
                                     (oidc_endpoint default_validation));
            EvHttpGet Samples.jwks_url]).
Proof.
  apply (C8_unknown_kid_rejected _ _ _ [("alg", JStr "RS256"); ("kid", JStr "k9")] [] "k9"
           (mkResponse 200 [] (Some (JObj [("jwks_uri", JStr Samples.jwks_url)])))
           (mkResponse 200 [] (Some (JObj [("keys", JList [Samples.key_entry "k1";
                                                           Samples.key_entry "k2"])])))
           [("jwks_uri", JStr Samples.jwks_url)]
           [("keys", JList [Samples.key_entry "k1"; Samples.key_entry "k2"])]
           Samples.jwks_url [Samples.key_entry "k1"; Samples.key_entry "k2"]);
    try reflexivity.
  repeat constructor.
  - eexists; split; [reflexivity | cbn; discriminate].
  - eexists; split; [reflexivity | cbn; discriminate].
Defined.

(** C10 (counterexample): a header without ["kid"] whose fetched key set
    is empty never reaches [unverified_header["kid"]]: the loop body does
    not run and the key-not-found [VtpmValidationError] is raised, not a
    [KeyError]. *)
Lemma C10_empty_keyset_no_key_error :
  assoc "kid" [("alg", JStr "RS256")] = None /\
  fst (validate_token (Samples.world (JObj [("alg", JStr "RS256")]) Samples.inter0 200 200
                         (JList []))
         default_validation "tok" [])
    = Raise (mkExn VtpmValidationError [Lit "Unable to find appropriate key id (kid) in header"]).
Proof. split; [reflexivity | vm_compute; reflexivity]. Qed.

(** C10 (amended): on the OIDC path, for a header without ["kid"]: when
    the fetched key set has at least one entry, the first one an object,
    the first iteration of the key loop evaluates
    [unverified_header["kid"]] and [validate_token] raises a raw
    [KeyError('kid')], which is not an instance of [VtpmValidationError],
    of its subclasses, or of [VtpmAttestationError]; when the key set is
    empty, the loop body never runs and the key-not-found
    [VtpmValidationError] is raised instead. *)
Theorem C10_missing_kid_raises_key_error (w : World) (self : VtpmValidation) (token : string)
    (kv : list (string * json)) (t : list event)
    (mresp jresp : Response) (meta jw : list (string * json)) (u : string)
    (entries : list json) :
  get_unverified_header w token = Ok (JObj kv) ->
  dict_get kv "alg" = JStr ALGO ->
  py_truthy (dict_get kv "x5c") = false ->
  assoc "kid" kv = None ->
  http_get w (String.append (expected_issuer self) (oidc_endpoint self)) = Some mresp ->
  status_code mresp = 200 -> json_body mresp = Some (JObj meta) ->
  assoc "jwks_uri" meta = Some (JStr u) ->
  http_get w u = Some jresp -> status_code jresp = 200 -> json_body jresp = Some (JObj jw) ->
  assoc "keys" jw = Some (JList entries) ->
  (forall ekv rest, entries = JObj ekv :: rest ->
     validate_token w self token t =
       (Raise (mkExn KeyError [Val (JStr "kid")]),
        t ++ [EvHttpGet (String.append (expected_issuer self) (oidc_endpoint self));
              EvHttpGet u])) /\
  (entries = [] ->
     validate_token w self token t =
       (Raise (mkExn VtpmValidationError
                 [Lit "Unable to find appropriate key id (kid) in header"]),
        t ++ [EvHttpGet (String.append (expected_issuer self) (oidc_endpoint self));
              EvHttpGet u])) /\
  (forall c, In c [VtpmValidationError; InvalidCertificateChainError; CertificateParsingError;
                   SignatureValidationError; VtpmAttestationError] ->
             isinstance KeyError c = false).
Proof.
  intros Hh Halg Hx5c Hk Hm Hms Hmj Hu Hj Hjs Hjj Hkeys. split; [|split].
  - intros ekv rest ->.
    rewrite (validate_token_dispatch _ _ _ _ _ Hh Halg), Hx5c.
    rewrite (oidc_up_to_keys w self token _ t mresp jresp meta jw u _
               Hm Hms Hmj Hu Hj Hjs Hjj Hkeys).
    cbn [find_rsa_key]. monad. cbn. rewrite Hk. reflexivity.
  - intros ->.
    rewrite (validate_token_dispatch _ _ _ _ _ Hh Halg), Hx5c.
    rewrite (oidc_up_to_keys w self token _ t mresp jresp meta jw u _
               Hm Hms Hmj Hu Hj Hjs Hjj Hkeys).
    cbn [find_rsa_key]. monad. cbn. reflexivity.
  - intros c Hc. repeat (destruct Hc as [<-|Hc]; [reflexivity|]). destruct Hc.
Qed.

Lemma C10_witness :
  validate_token (Samples.world (JObj [("alg", JStr "RS256")]) Samples.inter0 200 200 (JList [Samples.key_entry "k1"])) default_validation "tok" []
  = (Raise (mkExn KeyError [Val (JStr "kid")]),
     [] ++ [EvHttpGet (String.append (expected_issuer default_validation)
                                     (oidc_endpoint default_validation));
            EvHttpGet Samples.jwks_url]) /\
  validate_token (Samples.world (JObj [("alg", JStr "RS256")]) Samples.inter0 200 200 (JList [])) default_validation "tok" []
  = (Raise (mkExn VtpmValidationError
              [Lit "Unable to find appropriate key id (kid) in header"]),
     [] ++ [EvHttpGet (String.append (expected_issuer default_validation)
                                     (oidc_endpoint default_validation));
            EvHttpGet Samples.jwks_url]).
Proof.
  split.
  - apply (proj1 (C10_missing_kid_raises_key_error
             (Samples.world (JObj [("alg", JStr "RS256")]) Samples.inter0 200 200
                            (JList [Samples.key_entry "k1"]))
             default_validation "tok" [("alg", JStr "RS256")] []
             (mkResponse 200 [] (Some (JObj [("jwks_uri", JStr Samples.jwks_url)])))
             (mkResponse 200 [] (Some (JObj [("keys", JList [Samples.key_entry "k1"])])))
             [("jwks_uri", JStr Samples.jwks_url)]
             [("keys", JList [Samples.key_entry "k1"])]
             Samples.jwks_url [Samples.key_entry "k1"]
             eq_refl eq_refl eq_refl eq_refl eq_refl eq_refl eq_refl eq_refl
             eq_refl eq_refl eq_refl eq_refl)
             [("kid", JStr "k1"); ("n", JStr "AQAB"); ("e", JStr "AQAB")] []).
    reflexivity.
  - apply (proj1 (proj2 (C10_missing_kid_raises_key_error
             (Samples.world (JObj [("alg", JStr "RS256")]) Samples.inter0 200 200 (JList []))
             default_validation "tok" [("alg", JStr "RS256")] []
             (mkResponse 200 [] (Some (JObj [("jwks_uri", JStr Samples.jwks_url)])))
             (mkResponse 200 [] (Some (JObj [("keys", JList [])])))
             [("jwks_uri", JStr Samples.jwks_url)]
             [("keys", JList [])]
             Samples.jwks_url []
             eq_refl eq_refl eq_refl eq_refl eq_refl eq_refl eq_refl eq_refl
             eq_refl eq_refl eq_refl eq_refl))).
    reflexivity.
Defined.

(** C7 (code bug): a non-200 answer to either OIDC fetch surfaces from
    [validate_token] as [requests.exceptions.HTTPError], which is not a
    [VtpmValidationError], although [validate_token] documents
    [VtpmValidationError] "if token validation fails for any reason". *)
Theorem C7_non200_escapes_as_http_error :
  fst (validate_token (Samples.world (Samples.oidc_header "k1") Samples.inter0 404 200
                         (JList [Samples.key_entry "k1"]))
         default_validation "tok" [])
    = Raise (mkExn HTTPError [Lit "Failed to fetch well known file: "; Num 404]) /\
  fst (validate_token (Samples.world (Samples.oidc_header "k1") Samples.inter0 200 503
                         (JList [Samples.key_entry "k1"]))
         default_validation "tok" [])
    = Raise (mkExn HTTPError [Lit "Failed to fetch JWKS: "; Num 503]) /\
  isinstance HTTPError VtpmValidationError = false.
Proof. split; [vm_compute; reflexivity |]. split; vm_compute; reflexivity. Qed.

(** ** PKI path: the steps after the trust-anchor check *)

Lemma try_ok {A} (m : M A) (h : exn -> M A) (t : list event) (a : A) (t' : list event) :
  m t = (Ok a, t') -> try_except m h t = (Ok a, t').
Proof. intro H. unfold try_except. now rewrite H. Qed.

Lemma check_validity_ok (w : World) (certs : PKICertificates) (t : list event) :
  Forall (fun nc => _is_certificate_valid (snd nc) (now w) = true) (named_certificates certs) ->
  _check_certificate_validity w certs t = (Ok tt, t).
Proof.
  destruct certs as [l i r]. unfold _check_certificate_validity, named_certificates.
  intro H. rewrite !Forall_cons_iff in H. destruct H as (Hl & Hi & Hr & _). cbn in *.
  rewrite Hl, Hi, Hr. reflexivity.
Qed.

Lemma verify_chain_ok (w : World) (certs : PKICertificates) (t : list event) :
  chain_verify w (leaf_cert certs) (intermediate_cert certs) (root_cert certs) = None ->
  _verify_certificate_chain w certs t = (Ok tt, t ++ [EvChainVerify]).
Proof. intro H. unfold _verify_certificate_chain. monad. now rewrite H. Qed.

Lemma run_jwt_decode_ok (w : World) (token : string) (k : jwt_key) (v : bool) (c : json)
    (t : list event) :
  jwt_decode w token k v = JwtClaims c -> run_jwt_decode w token k v t = (Ok c, t ++ [EvJwtDecode]).
Proof. intro H. unfold run_jwt_decode. monad. now rewrite H. Qed.

Lemma run_jwt_decode_error (w : World) (token : string) (k : jwt_key) (v : bool)
    (c : exc_class) (m : string) (t : list event) :
  jwt_decode w token k v = JwtError c m ->
  run_jwt_decode w token k v t = (Raise (mkExn c [Text m]), t ++ [EvJwtDecode]).
Proof. intro H. unfold run_jwt_decode. monad. now rewrite H. Qed.

(** Up to the [try] of [_decode_and_validate_pki]: the header selects
    PKI, the root is fetched and parsed, and its fingerprint matches. *)
Ltac pki_prefix Hh Halg Htr Hget Hst Hpem Hfp :=
  rewrite (validate_token_dispatch _ _ _ _ _ Hh Halg), Htr;
  unfold _decode_and_validate_pki;
  rewrite (bind_ok _ _ _ _ _ (well_known_ok _ _ _ _ _ Hget Hst));
  rewrite Hpem; cbn -[try_except]; rewrite Hfp, String.eqb_refl; cbn -[try_except].

Lemma extract_wrong_count (w : World) (kv : list (string * json)) (t : list event) (n : nat) :
  py_truthy (dict_get kv "x5c") = true ->
  py_len (dict_get kv "x5c") = Ok n ->
  n <> CERT_COUNT ->
  _extract_and_validate_certificates w (JObj kv) t
  = (Raise (mkExn VtpmValidationError [Lit "Invalid x5c certificates in header"]), t).
Proof.
  intros Htr Hlen Hn. unfold _extract_and_validate_certificates.
  rewrite (bind_ok _ _ _ _ _ (lift_ok _ _ _ (dict_get_py_get kv "x5c"))), Htr.
  cbn [negb]. rewrite (bind_ok _ _ _ _ _ (bind_ok _ _ _ _ _ (lift_ok _ _ _ Hlen))).
  apply Nat.eqb_neq in Hn. cbn. rewrite Hn. reflexivity.
Qed.

Lemma x5c_truthy (kv : list (string * json)) (l : list json) (x : json) :
  dict_get kv "x5c" = JList (x :: l) -> py_truthy (dict_get kv "x5c") = true.
Proof. intros ->. reflexivity. Qed.

(** X: a PKI token that passes every check (pinned root, three
    certificates that decode, leaf with sha256 and an RSA key, embedded
    root equal to the fetched one, all three windows containing the
    current instant, chain verified) yields the claims [jwt.decode]
    returns for the leaf's public key, with audience verification on;
    the steps run in order: fetch, three decodes, chain check, signature
    check. *)
Theorem validate_token_pki_success (w : World) (self : VtpmValidation) (token : string)
    (kv : list (string * json)) (t : list event) (resp : Response)
    (root : Certificate) (a b c : string) (leaf inter rootc : Certificate) (claims : json) :
  get_unverified_header w token = Ok (JObj kv) ->
  dict_get kv "alg" = JStr ALGO ->
  dict_get kv "x5c" = JList [JStr a; JStr b; JStr c] ->
  http_get w (String.append (expected_issuer self) (pki_endpoint self)) = Some resp ->
  status_code resp = 200 ->
  load_pem w (content resp) = inl root ->
  fingerprint_hex (sha1 w (der_bytes root)) = CERT_FINGERPRINT ->
  load_der_b64 w a = inl leaf -> load_der_b64 w b = inl inter -> load_der_b64 w c = inl rootc ->
  signature_hash_algorithm leaf = Some CERT_HASH_ALGO ->
  public_key_is_rsa leaf = true ->
  sha256 w (tbs_certificate_bytes root) = sha256 w (tbs_certificate_bytes rootc) ->
  Forall (fun nc => _is_certificate_valid (snd nc) (now w) = true)
    (named_certificates (mkPKICertificates leaf inter rootc)) ->
  chain_verify w leaf inter rootc = None ->
  jwt_decode w token (KeyPem leaf) true = JwtClaims claims ->
  validate_token w self token t =
    (Ok claims,
     t ++ [EvHttpGet (String.append (expected_issuer self) (pki_endpoint self));
           EvDecodeCert (JStr a); EvDecodeCert (JStr b); EvDecodeCert (JStr c);
           EvChainVerify; EvJwtDecode]).
Proof.
  intros Hh Halg Hx5c Hget Hst Hpem Hfp Ha Hb Hc Hsig Hrsa Htbs Hval Hchain Hjwt.
  pose proof (x5c_truthy _ _ _ Hx5c) as Htr.
  pki_prefix Hh Halg Htr Hget Hst Hpem Hfp.
  apply try_ok.
  rewrite (bind_ok _ _ _ _ _ (extract_three w kv _ a b c leaf inter rootc Hx5c Ha Hb Hc)).
  rewrite (bind_ok _ _ _ _ _ (validate_leaf_ok leaf _ Hsig Hrsa)).
  rewrite (bind_ok _ _ _ _ _ (compare_root_ok w rootc root _ Htbs)).
  rewrite (bind_ok _ _ _ _ _ (check_validity_ok w _ _ Hval)).
  rewrite (bind_ok _ _ _ _ _ (verify_chain_ok w (mkPKICertificates leaf inter rootc) _ Hchain)).
  rewrite (run_jwt_decode_ok _ _ _ _ _ _ Hjwt).
  now rewrite <- !app_assoc.
Qed.

Lemma validate_token_pki_success_witness :
  validate_token (Samples.world Samples.pki_header Samples.inter0 200 200 (JList []))
    default_validation "tok" []
  = (Ok (JObj [("iss", JStr Samples.issuer)]),
     [] ++ [EvHttpGet (String.append (expected_issuer default_validation)
                                     (pki_endpoint default_validation));
            EvDecodeCert (JStr "L"); EvDecodeCert (JStr "I"); EvDecodeCert (JStr "R");
            EvChainVerify; EvJwtDecode]).
Proof.
  apply (validate_token_pki_success _ _ _
           [("alg", JStr "RS256"); ("x5c", JList [JStr "L"; JStr "I"; JStr "R"])] []
           (Samples.ok_response None) Samples.root0 "L" "I" "R"
           Samples.leaf0 Samples.inter0 Samples.root0); try reflexivity.
  repeat constructor.
Defined.

(** X: a truthy x5c value whose [len] is not 3 is rejected before any
    certificate is decoded; the [VtpmValidationError] raised by
    [_extract_and_validate_certificates] reaches the caller re-wrapped
    as "Unexpected error during validation: Invalid x5c certificates in
    header". *)
Theorem validate_token_pki_wrong_count (w : World) (self : VtpmValidation) (token : string)
    (kv : list (string * json)) (t : list event) (resp : Response) (root : Certificate)
    (n : nat) :
  get_unverified_header w token = Ok (JObj kv) ->
  dict_get kv "alg" = JStr ALGO ->
  py_truthy (dict_get kv "x5c") = true ->
  py_len (dict_get kv "x5c") = Ok n ->
  n <> CERT_COUNT ->
  http_get w (String.append (expected_issuer self) (pki_endpoint self)) = Some resp ->
  status_code resp = 200 ->
  load_pem w (content resp) = inl root ->
  fingerprint_hex (sha1 w (der_bytes root)) = CERT_FINGERPRINT ->
  validate_token w self token t =
    (Raise (mkExn VtpmValidationError
              [Lit "Unexpected error during validation: "; Lit "Invalid x5c certificates in header"]),
     t ++ [EvHttpGet (String.append (expected_issuer self) (pki_endpoint self))]).
Proof.
  intros Hh Halg Htr Hlen Hn Hget Hst Hpem Hfp.
  pki_prefix Hh Halg Htr Hget Hst Hpem Hfp.
  rewrite (try_raise _ _ _ _ _ (bind_raise _ _ _ _ _ (extract_wrong_count w kv _ n Htr Hlen Hn))).
  reflexivity.
Qed.

Lemma validate_token_pki_wrong_count_witness :
  validate_token (Samples.world (JObj [("alg", JStr "RS256"); ("x5c", JList [JStr "L"; JStr "I"])])
                    Samples.inter0 200 200 (JList []))
    default_validation "tok" []
  = (Raise (mkExn VtpmValidationError
              [Lit "Unexpected error during validation: "; Lit "Invalid x5c certificates in header"]),
     [] ++ [EvHttpGet (String.append (expected_issuer default_validation)
                                     (pki_endpoint default_validation))]).
Proof.
  apply (validate_token_pki_wrong_count _ _ _
           [("alg", JStr "RS256"); ("x5c", JList [JStr "L"; JStr "I"])] []
           (Samples.ok_response None) Samples.root0 2); try reflexivity.
  unfold CERT_COUNT. lia.
Defined.

Lemma mapM_decode_fail (w : World) (pre rest : list string) (bad m : string) (t : list event) :
  Forall (fun s => exists c, load_der_b64 w s = inl c) pre ->
  load_der_b64 w bad = inr m ->
  mapM (_decode_der_certificate w) (map JStr (pre ++ bad :: rest)) t
  = (Raise (mkExn CertificateParsingError [Lit "Failed to decode certificate: "; Text m]),
     t ++ map (fun s => EvDecodeCert (JStr s)) (pre ++ [bad])).
Proof.
  intros Hpre Hbad. revert t.
  induction Hpre as [|s pre [c Hc] _ IH]; intro t; cbn [app map mapM].
  - unfold _decode_der_certificate. monad. rewrite Hbad. reflexivity.
  - rewrite (bind_ok _ _ _ c (t ++ [EvDecodeCert (JStr s)])).
    + unfold bind at 1. rewrite IH. now rewrite <- app_assoc.
    + unfold _decode_der_certificate. monad. now rewrite Hc.
Qed.

Lemma bytes_eqb_eq (a b : list Z) : bytes_eqb a b = true -> a = b.
Proof.
  revert b. induction a as [|x a IH]; intros [|y b]; simpl; try discriminate; [reflexivity|].
  intro H. apply andb_prop in H as [Hx Hr]. apply Z.eqb_eq in Hx. subst. f_equal. now apply IH.
Qed.


(** X: decoding of the x5c entries stops at the first one that does not
    decode: the entries before it have been decoded, the ones after it
    are not, and the [CertificateParsingError] (not a [ValueError], so
    the inner handler re-raises it as is) reaches the caller re-wrapped
    as "Unexpected error during validation: Failed to decode certificate:
    ..." with the decoder's message. *)
Theorem validate_token_pki_decode_stops (w : World) (self : VtpmValidation) (token : string)
    (kv : list (string * json)) (t : list event) (resp : Response) (root : Certificate)
    (pre rest : list string) (bad m : string) :
  get_unverified_header w token = Ok (JObj kv) ->
  dict_get kv "alg" = JStr ALGO ->
  dict_get kv "x5c" = JList (map JStr (pre ++ bad :: rest)) ->
  length (pre ++ bad :: rest) = CERT_COUNT ->
  http_get w (String.append (expected_issuer self) (pki_endpoint self)) = Some resp ->
  status_code resp = 200 ->
  load_pem w (content resp) = inl root ->
  fingerprint_hex (sha1 w (der_bytes root)) = CERT_FINGERPRINT ->
  Forall (fun s => exists c, load_der_b64 w s = inl c) pre ->
  load_der_b64 w bad = inr m ->
  validate_token w self token t =
    (Raise (mkExn VtpmValidationError
              [Lit "Unexpected error during validation: ";
               Lit "Failed to decode certificate: "; Text m]),
     t ++ EvHttpGet (String.append (expected_issuer self) (pki_endpoint self))
       :: map (fun s => EvDecodeCert (JStr s)) (pre ++ [bad])).
Proof.
  intros Hh Halg Hx5c Hlen Hget Hst Hpem Hfp Hpre Hbad.
  assert (Htr : py_truthy (dict_get kv "x5c") = true).
  { rewrite Hx5c. destruct pre; reflexivity. }
  pki_prefix Hh Halg Htr Hget Hst Hpem Hfp.
  assert (He : _extract_and_validate_certificates w (JObj kv)
                 (t ++ [EvHttpGet (String.append (expected_issuer self) (pki_endpoint self))])
               = (Raise (mkExn CertificateParsingError
                           [Lit "Failed to decode certificate: "; Text m]),
                  (t ++ [EvHttpGet (String.append (expected_issuer self) (pki_endpoint self))])
                    ++ map (fun s => EvDecodeCert (JStr s)) (pre ++ [bad]))).
  { unfold _extract_and_validate_certificates.
    rewrite (bind_ok _ _ _ _ _ (lift_ok _ _ _ (dict_get_py_get kv "x5c"))), Htr.
    cbn [negb]. rewrite Hx5c. cbn [py_len lift ret bind].
    rewrite length_map, Hlen, Nat.eqb_refl. cbn [negb].
    unfold try_except. cbn [py_iter lift bind].
    rewrite (bind_ok _ _ _ _ _ (eq_refl : ret (map JStr (pre ++ bad :: rest)) _ = _)).
    rewrite (bind_raise _ _ _ _ _ (mapM_decode_fail _ _ _ _ _ _ Hpre Hbad)). reflexivity. }
  rewrite (try_raise _ _ _ _ _ (bind_raise _ _ _ _ _ He)).
  cbn. now rewrite <- app_assoc.
Qed.

Lemma validate_token_pki_decode_stops_witness :
  validate_token (Samples.x5c_world ["L"; "X"; "R"]) default_validation "tok" []
  = (Raise (mkExn VtpmValidationError
              [Lit "Unexpected error during validation: ";
               Lit "Failed to decode certificate: "; Text "Incorrect padding"]),
     [] ++ EvHttpGet (String.append (expected_issuer default_validation)
                                    (pki_endpoint default_validation))
       :: map (fun s => EvDecodeCert (JStr s)) (["L"] ++ ["X"])).
Proof.
  apply (validate_token_pki_decode_stops _ _ _ (Samples.x5c_header ["L"; "X"; "R"]) []
           (Samples.ok_response None) Samples.root0 ["L"] ["R"]); try reflexivity.
  constructor; [exists Samples.leaf0; reflexivity | constructor].
Defined.

Lemma compare_root_fails (w : World) (token_root root : Certificate) (t : list event) :
  sha256 w (tbs_certificate_bytes root) <> sha256 w (tbs_certificate_bytes token_root) ->
  _compare_root_certificates w token_root root t
  = (Raise (mkExn VtpmValidationError [Lit "Root certificate fingerprint mismatch"]), t).
Proof.
  intro H. unfold _compare_root_certificates.
  destruct (bytes_eqb _ _) eqn:E; [apply bytes_eqb_eq in E; contradiction | reflexivity].
Qed.

Lemma verify_chain_fails (w : World) (certs : PKICertificates) (t : list event)
    (c : exc_class) (m : string) :
  chain_verify w (leaf_cert certs) (intermediate_cert certs) (root_cert certs) = Some (c, m) ->
  _verify_certificate_chain w certs t
  = (Raise (if isinstance c OpenSSLError
            then mkExn InvalidCertificateChainError
                   [Lit "Certificate chain verification failed: "; Text m]
            else mkExn c [Text m]),
     t ++ [EvChainVerify]).
Proof.
  intro H. unfold _verify_certificate_chain. monad. rewrite H.
  destruct (isinstance c OpenSSLError); reflexivity.
Qed.

(** Inside the [try] of [_decode_and_validate_pki], once the three
    certificates are extracted. *)
Ltac pki_extracted w kv Hx5c Ha Hb Hc :=
  unfold try_except;
  rewrite (bind_ok _ _ _ _ _ (extract_three w kv _ _ _ _ _ _ _ Hx5c Ha Hb Hc));
  cbv beta; cbn [leaf_cert intermediate_cert Validation.root_cert].



(** X: when the root certificate embedded in the token has a TBS SHA-256
    digest different from that of the fetched root, validation fails with
    "Unexpected error during validation: Root certificate fingerprint
    mismatch", after the leaf check and before any validity check or
    chain verification. *)
Theorem validate_token_pki_root_mismatch (w : World) (self : VtpmValidation) (token : string)
    (kv : list (string * json)) (t : list event) (resp : Response)
    (root : Certificate) (a b c : string) (leaf inter rootc : Certificate) :
  get_unverified_header w token = Ok (JObj kv) ->
  dict_get kv "alg" = JStr ALGO ->
  dict_get kv "x5c" = JList [JStr a; JStr b; JStr c] ->
  http_get w (String.append (expected_issuer self) (pki_endpoint self)) = Some resp ->
  status_code resp = 200 ->
  load_pem w (content resp) = inl root ->
  fingerprint_hex (sha1 w (der_bytes root)) = CERT_FINGERPRINT ->
  load_der_b64 w a = inl leaf -> load_der_b64 w b = inl inter -> load_der_b64 w c = inl rootc ->
  signature_hash_algorithm leaf = Some CERT_HASH_ALGO ->
  public_key_is_rsa leaf = true ->
  sha256 w (tbs_certificate_bytes root) <> sha256 w (tbs_certificate_bytes rootc) ->
  validate_token w self token t =
    (Raise (mkExn VtpmValidationError
              [Lit "Unexpected error during validation: ";
               Lit "Root certificate fingerprint mismatch"]),
     t ++ [EvHttpGet (String.append (expected_issuer self) (pki_endpoint self));
           EvDecodeCert (JStr a); EvDecodeCert (JStr b); EvDecodeCert (JStr c)]).
Proof.
  intros Hh Halg Hx5c Hget Hst Hpem Hfp Ha Hb Hc Hsig Hrsa Htbs.
  pose proof (x5c_truthy _ _ _ Hx5c) as Htr.
  pki_prefix Hh Halg Htr Hget Hst Hpem Hfp.
  pki_extracted w kv Hx5c Ha Hb Hc.
  rewrite (bind_ok _ _ _ _ _ (validate_leaf_ok leaf _ Hsig Hrsa)).
  rewrite (bind_raise _ _ _ _ _ (compare_root_fails w rootc root _ Htbs)).
  cbn. now rewrite <- app_assoc.
Qed.

Lemma validate_token_pki_root_mismatch_witness :
  validate_token (Samples.x5c_world ["L"; "I"; "L"]) default_validation "tok" [] =
    (Raise (mkExn VtpmValidationError
              [Lit "Unexpected error during validation: ";
               Lit "Root certificate fingerprint mismatch"]),
     [] ++ [EvHttpGet (String.append (expected_issuer default_validation)
                                     (pki_endpoint default_validation));
            EvDecodeCert (JStr "L"); EvDecodeCert (JStr "I"); EvDecodeCert (JStr "L")]).
Proof.
  apply (validate_token_pki_root_mismatch _ _ _ (Samples.x5c_header ["L"; "I"; "L"]) []
           (Samples.ok_response None) Samples.root0 "L" "I" "L"
           Samples.leaf0 Samples.inter0 Samples.leaf0); try reflexivity.
  cbn. discriminate.
Defined.

(** X: when the three certificates pass every check but building or
    verifying the X.509 chain raises (neither an [InvalidKey] nor a
    PyJWT [InvalidTokenError]), the token's signature is not
    checked, and the caller gets "Unexpected error during validation: "
    followed by: "Certificate chain verification failed: " and the text
    for an [OpenSSL.crypto.Error]; the exception's own text for anything
    else, among them the [X509StoreContextError] of a chain that does not
    verify, which [except OpenSSLError] does not catch. *)
Theorem validate_token_pki_chain_rejected (w : World) (self : VtpmValidation) (token : string)
    (kv : list (string * json)) (t : list event) (resp : Response)
    (root : Certificate) (a b c : string) (leaf inter rootc : Certificate)
    (ec : exc_class) (m : string) :
  get_unverified_header w token = Ok (JObj kv) ->
  dict_get kv "alg" = JStr ALGO ->
  dict_get kv "x5c" = JList [JStr a; JStr b; JStr c] ->
  http_get w (String.append (expected_issuer self) (pki_endpoint self)) = Some resp ->
  status_code resp = 200 ->
  load_pem w (content resp) = inl root ->
  fingerprint_hex (sha1 w (der_bytes root)) = CERT_FINGERPRINT ->
  load_der_b64 w a = inl leaf -> load_der_b64 w b = inl inter -> load_der_b64 w c = inl rootc ->
  signature_hash_algorithm leaf = Some CERT_HASH_ALGO ->
  public_key_is_rsa leaf = true ->
  sha256 w (tbs_certificate_bytes root) = sha256 w (tbs_certificate_bytes rootc) ->
  Forall (fun nc => _is_certificate_valid (snd nc) (now w) = true)
    (named_certificates (mkPKICertificates leaf inter rootc)) ->
  chain_verify w leaf inter rootc = Some (ec, m) ->
  isinstance ec InvalidKey || isinstance ec InvalidTokenError = false ->
  validate_token w self token t =
    (Raise (mkExn VtpmValidationError
              (Lit "Unexpected error during validation: " ::
               (if isinstance ec OpenSSLError
                then [Lit "Certificate chain verification failed: "; Text m]
                else [Text m]))),
     t ++ [EvHttpGet (String.append (expected_issuer self) (pki_endpoint self));
           EvDecodeCert (JStr a); EvDecodeCert (JStr b); EvDecodeCert (JStr c);
           EvChainVerify]).
Proof.
  intros Hh Halg Hx5c Hget Hst Hpem Hfp Ha Hb Hc Hsig Hrsa Htbs Hval Hchain Hnot.
  pose proof (x5c_truthy _ _ _ Hx5c) as Htr.
  pki_prefix Hh Halg Htr Hget Hst Hpem Hfp.
  pki_extracted w kv Hx5c Ha Hb Hc.
  rewrite (bind_ok _ _ _ _ _ (validate_leaf_ok leaf _ Hsig Hrsa)).
  rewrite (bind_ok _ _ _ _ _ (compare_root_ok w rootc root _ Htbs)).
  rewrite (bind_ok _ _ _ _ _ (check_validity_ok w _ _ Hval)).
  rewrite (bind_raise _ _ _ _ _ (verify_chain_fails w (mkPKICertificates leaf inter rootc) _ _ _ Hchain)).
  rewrite <- !app_assoc. destruct (isinstance ec OpenSSLError); cbn [cls msg].
  - reflexivity.
  - rewrite Hnot. reflexivity.
Qed.

Lemma validate_token_pki_chain_rejected_witness :
  validate_token (Samples.with_chain (Samples.world Samples.pki_header Samples.inter0 200 200
                                        (JList []))
                    (Some (X509StoreContextError, "unable to get local issuer certificate")))
    default_validation "tok" [] =
    (Raise (mkExn VtpmValidationError
              [Lit "Unexpected error during validation: ";
               Text "unable to get local issuer certificate"]),
     [] ++ [EvHttpGet (String.append (expected_issuer default_validation)
                                     (pki_endpoint default_validation));
            EvDecodeCert (JStr "L"); EvDecodeCert (JStr "I"); EvDecodeCert (JStr "R");
            EvChainVerify]).
Proof.
  apply (validate_token_pki_chain_rejected _ _ _
           [("alg", JStr "RS256"); ("x5c", JList [JStr "L"; JStr "I"; JStr "R"])] []
           (Samples.ok_response None) Samples.root0 "L" "I" "R"
           Samples.leaf0 Samples.inter0 Samples.root0 X509StoreContextError
           "unable to get local issuer certificate"); try reflexivity.
  repeat constructor.
Defined.

(** X: when [jwt.decode] rejects a PKI token that passed the certificate
    checks, an [InvalidKey] or [InvalidTokenError] (with its subclasses,
    among them [ExpiredSignatureError]) becomes "Token signature
    validation failed: ..." and any other error "Unexpected error during
    validation: ...", in both cases a plain [VtpmValidationError] with
    the decoder's message: unlike the OIDC path, an expired PKI token
    does not raise [SignatureValidationError]. *)
Theorem validate_token_pki_decode_error (w : World) (self : VtpmValidation) (token : string)
    (kv : list (string * json)) (t : list event) (resp : Response)
    (root : Certificate) (a b c : string) (leaf inter rootc : Certificate)
    (ec : exc_class) (m : string) :
  get_unverified_header w token = Ok (JObj kv) ->
  dict_get kv "alg" = JStr ALGO ->
  dict_get kv "x5c" = JList [JStr a; JStr b; JStr c] ->
  http_get w (String.append (expected_issuer self) (pki_endpoint self)) = Some resp ->
  status_code resp = 200 ->
  load_pem w (content resp) = inl root ->
  fingerprint_hex (sha1 w (der_bytes root)) = CERT_FINGERPRINT ->
  load_der_b64 w a = inl leaf -> load_der_b64 w b = inl inter -> load_der_b64 w c = inl rootc ->
  signature_hash_algorithm leaf = Some CERT_HASH_ALGO ->
  public_key_is_rsa leaf = true ->
  sha256 w (tbs_certificate_bytes root) = sha256 w (tbs_certificate_bytes rootc) ->
  Forall (fun nc => _is_certificate_valid (snd nc) (now w) = true)
    (named_certificates (mkPKICertificates leaf inter rootc)) ->
  chain_verify w leaf inter rootc = None ->
  jwt_decode w token (KeyPem leaf) true = JwtError ec m ->
  validate_token w self token t =
    (Raise (mkExn VtpmValidationError
              [if isinstance ec InvalidKey || isinstance ec InvalidTokenError
               then Lit "Token signature validation failed: "
               else Lit "Unexpected error during validation: "; Text m]),
     t ++ [EvHttpGet (String.append (expected_issuer self) (pki_endpoint self));
           EvDecodeCert (JStr a); EvDecodeCert (JStr b); EvDecodeCert (JStr c);
           EvChainVerify; EvJwtDecode]).
Proof.
  intros Hh Halg Hx5c Hget Hst Hpem Hfp Ha Hb Hc Hsig Hrsa Htbs Hval Hchain Hjwt.
  pose proof (x5c_truthy _ _ _ Hx5c) as Htr.
  pki_prefix Hh Halg Htr Hget Hst Hpem Hfp.
  pki_extracted w kv Hx5c Ha Hb Hc.
  rewrite (bind_ok _ _ _ _ _ (validate_leaf_ok leaf _ Hsig Hrsa)).
  rewrite (bind_ok _ _ _ _ _ (compare_root_ok w rootc root _ Htbs)).
  rewrite (bind_ok _ _ _ _ _ (check_validity_ok w _ _ Hval)).
  rewrite (bind_ok _ _ _ _ _ (verify_chain_ok w (mkPKICertificates leaf inter rootc) _ Hchain)).
  cbn [leaf_cert]. rewrite (run_jwt_decode_error _ _ _ _ _ _ _ Hjwt).
  cbn [cls msg]. rewrite <- !app_assoc.
  destruct (isinstance ec InvalidKey || isinstance ec InvalidTokenError); reflexivity.
Qed.

Lemma validate_token_pki_decode_error_witness :
  validate_token (Samples.with_jwt (Samples.world Samples.pki_header Samples.inter0 200 200
                                      (JList []))
                    (JwtError ExpiredSignatureError "Signature has expired"))
    default_validation "tok" [] =
    (Raise (mkExn VtpmValidationError
              [Lit "Token signature validation failed: "; Text "Signature has expired"]),
     [] ++ [EvHttpGet (String.append (expected_issuer default_validation)
                                     (pki_endpoint default_validation));
            EvDecodeCert (JStr "L"); EvDecodeCert (JStr "I"); EvDecodeCert (JStr "R");
            EvChainVerify; EvJwtDecode]).
Proof.
  apply (validate_token_pki_decode_error _ _ _
           [("alg", JStr "RS256"); ("x5c", JList [JStr "L"; JStr "I"; JStr "R"])] []
           (Samples.ok_response None) Samples.root0 "L" "I" "R"
           Samples.leaf0 Samples.inter0 Samples.root0 ExpiredSignatureError); try reflexivity.
  repeat constructor.
Defined.

(** X: a non-200 answer for the root certificate escapes
    [validate_token] as the [HTTPError] of [_get_well_known_file]
    (outside the [try] of [_decode_and_validate_pki], so not wrapped);
    the fetch is the only action. *)
Theorem validate_token_pki_root_fetch_error (w : World) (self : VtpmValidation)
    (token : string) (kv : list (string * json)) (t : list event) (resp : Response) :
  get_unverified_header w token = Ok (JObj kv) ->
  dict_get kv "alg" = JStr ALGO ->
  py_truthy (dict_get kv "x5c") = true ->
  http_get w (String.append (expected_issuer self) (pki_endpoint self)) = Some resp ->
  status_code resp <> 200 ->
  validate_token w self token t =
    (Raise (mkExn HTTPError [Lit "Failed to fetch well known file: "; Num (status_code resp)]),
     t ++ [EvHttpGet (String.append (expected_issuer self) (pki_endpoint self))]).
Proof.
  intros Hh Halg Htr Hget Hst.
  rewrite (validate_token_dispatch _ _ _ _ _ Hh Halg), Htr.
  unfold _decode_and_validate_pki. apply bind_raise.
  unfold _get_well_known_file. monad. rewrite Hget.
  apply Z.eqb_neq in Hst. cbn. now rewrite Hst.
Qed.

Lemma validate_token_pki_root_fetch_error_witness :
  validate_token (Samples.with_http (Samples.world Samples.pki_header Samples.inter0 200 200
                                       (JList []))
                    (Some (mkResponse 404 [] None)))
    default_validation "tok" [] =
    (Raise (mkExn HTTPError [Lit "Failed to fetch well known file: "; Num 404]),
     [] ++ [EvHttpGet (String.append (expected_issuer default_validation)
                                     (pki_endpoint default_validation))]).
Proof.
  apply (validate_token_pki_root_fetch_error _ _ _
           [("alg", JStr "RS256"); ("x5c", JList [JStr "L"; JStr "I"; JStr "R"])] []
           (mkResponse 404 [] None)); try reflexivity.
  discriminate.
Defined.

(** ** Rendering of the SHA-1 digest *)

Lemma py_upper_cons (c : ascii) (s : string) :
  py_upper (String c s) = String (ascii_upper c) (py_upper s).
Proof. reflexivity. Qed.

Lemma py_upper_append (x y : string) :
  py_upper (String.append x y) = String.append (py_upper x) (py_upper y).
Proof.
  induction x as [|c x IH]; [reflexivity |].
  cbn [String.append]. rewrite !py_upper_cons, IH. reflexivity.
Qed.

Lemma py_upper_join (l : list string) :
  py_upper (py_join ":" l) = py_join ":" (map py_upper l).
Proof.
  induction l as [|p [|q r] IH]; [reflexivity | reflexivity |].
  change (py_join ":" (p :: q :: r)) with (String.append p (String.append ":" (py_join ":" (q :: r)))).
  rewrite !py_upper_append, IH. reflexivity.
Qed.

Lemma upper_format (x : Z) :
  py_upper (format_02x x)
  = String (ascii_upper (hex_digit (x / 16))) (String (ascii_upper (hex_digit (x mod 16))) "").
Proof. reflexivity. Qed.

Lemma upper_hex_code (d : Z) :
  0 <= d < 16 ->
  Z.of_nat (nat_of_ascii (ascii_upper (hex_digit d))) = if d <? 10 then 48 + d else 55 + d.
Proof.
  intro H.
  assert (d = 0 \/ d = 1 \/ d = 2 \/ d = 3 \/ d = 4 \/ d = 5 \/ d = 6 \/ d = 7 \/ d = 8 \/
          d = 9 \/ d = 10 \/ d = 11 \/ d = 12 \/ d = 13 \/ d = 14 \/ d = 15) as Hd by lia.
  repeat destruct Hd as [Hd | Hd]; subst; reflexivity.
Qed.

Lemma upper_hex_inj (d e : Z) :
  0 <= d < 16 -> 0 <= e < 16 ->
  ascii_upper (hex_digit d) = ascii_upper (hex_digit e) -> d = e.
Proof.
  intros Hd He H.
  apply (f_equal (fun c => Z.of_nat (nat_of_ascii c))) in H.
  rewrite (upper_hex_code d Hd), (upper_hex_code e He) in H.
  destruct (d <? 10) eqn:E1, (e <? 10) eqn:E2;
    rewrite ?Z.ltb_lt, ?Z.ltb_ge in E1, E2; lia.
Qed.

Lemma byte_digits_inj (x y : Z) :
  0 <= x <= 255 -> 0 <= y <= 255 -> x / 16 = y / 16 -> x mod 16 = y mod 16 -> x = y.
Proof.
  intros Hx Hy Hq Hr.
  rewrite (Z.div_mod x 16), (Z.div_mod y 16) by lia. congruence.
Qed.

Lemma byte_div16 (x : Z) : 0 <= x <= 255 -> 0 <= x / 16 < 16.
Proof. intro H. split; [apply Z.div_pos | apply Z.div_lt_upper_bound]; lia. Qed.

Lemma upper_format_inj (x y : Z) :
  0 <= x <= 255 -> 0 <= y <= 255 ->
  ascii_upper (hex_digit (x / 16)) = ascii_upper (hex_digit (y / 16)) ->
  ascii_upper (hex_digit (x mod 16)) = ascii_upper (hex_digit (y mod 16)) -> x = y.
Proof.
  intros Hx Hy H1 H2. apply byte_digits_inj; auto.
  - apply upper_hex_inj; auto using byte_div16.
  - apply upper_hex_inj; auto; apply Z.mod_pos_bound; lia.
Qed.

Lemma fingerprint_hex_eq (b : list Z) :
  fingerprint_hex b = py_join ":" (map (fun x => py_upper (format_02x x)) b).
Proof. unfold fingerprint_hex. rewrite py_upper_join, map_map. reflexivity. Qed.

Lemma join_upper_inj (b1 b2 : list Z) :
  Forall (fun x => 0 <= x <= 255) b1 -> Forall (fun x => 0 <= x <= 255) b2 ->
  py_join ":" (map (fun x => py_upper (format_02x x)) b1)
  = py_join ":" (map (fun x => py_upper (format_02x x)) b2) -> b1 = b2.
Proof.
  revert b2. induction b1 as [|x b1 IH]; intros [|y b2] H1 H2 H.
  - reflexivity.
  - destruct b2; cbn [map py_join] in H; rewrite upper_format in H; discriminate H.
  - destruct b1; cbn [map py_join] in H; rewrite upper_format in H; discriminate H.
  - apply Forall_cons_iff in H1 as [Hx H1]. apply Forall_cons_iff in H2 as [Hy H2].
    destruct b1 as [|x' b1], b2 as [|y' b2]; cbn [map py_join] in H;
      rewrite ?(upper_format x), ?(upper_format y) in H; cbn [String.append] in H.
    + injection H as Ha Hb. rewrite (upper_format_inj x y Hx Hy Ha Hb). reflexivity.
    + injection H as Ha Hb Hrest. discriminate Hrest.
    + injection H as Ha Hb Hrest. discriminate Hrest.
    + injection H as Ha Hb Hrest.
      rewrite (upper_format_inj x y Hx Hy Ha Hb). f_equal.
      apply IH; auto.
Qed.

(** X: on byte lists (every element in [0, 255], as a SHA-1 digest is),
    the colon-separated uppercase hex rendering used by
    [_decode_and_validate_pki] is injective, so the root fingerprint
    check accepts exactly the certificates whose SHA-1 digest is the one
    [CERT_FINGERPRINT] spells out. *)
Theorem fingerprint_check_exact (b : list Z) :
  Forall (fun x => 0 <= x <= 255) b ->
  (fingerprint_hex b = CERT_FINGERPRINT <-> b = Samples.pinned_sha1).
Proof.
  intro Hb. rewrite <- fingerprint_hex_pinned. split; [| now intros ->].
  rewrite !fingerprint_hex_eq. apply join_upper_inj; [exact Hb |].
  unfold Samples.pinned_sha1. repeat (constructor; [lia |]). constructor.
Qed.

Lemma fingerprint_check_exact_witness :
  Forall (fun x => 0 <= x <= 255) [185; 81; 0] /\
  (fingerprint_hex [185; 81; 0] = CERT_FINGERPRINT <-> [185; 81; 0] = Samples.pinned_sha1).
Proof.
  assert (H : Forall (fun x => 0 <= x <= 255) [185; 81; 0])
    by (repeat (constructor; [lia |]); constructor).
  split; [exact H | apply (fingerprint_check_exact [185; 81; 0] H)].
Defined.

(** ** OIDC path: key selection and signature check *)

Lemma dict_get_assoc (kv : list (string * json)) (k s : string) :
  dict_get kv k = JStr s -> assoc k kv = Some (JStr s).
Proof. unfold dict_get. destruct (assoc k kv); [now intros -> | discriminate]. Qed.

(** The first entry of the key set whose ["kid"] equals the header's is
    the one converted; the entries before it are only compared. *)
Lemma find_rsa_key_first (w : World) (kv : list (string * json)) (k : string)
    (pre post : list json) (ekv : list (string * json)) (t : list event) :
  assoc "kid" kv = Some (JStr k) ->
  Forall (fun e => exists ekv, e = JObj ekv /\ dict_get ekv "kid" <> JStr k) pre ->
  dict_get ekv "kid" = JStr k ->
  find_rsa_key w (JObj kv) (pre ++ JObj ekv :: post) t
  = (let! rsa_key := _jwk_to_rsa_key w (JObj ekv) in ret (Some rsa_key)) t.
Proof.
  intros Hk Hall Hkid. induction Hall as [|e rest [fkv [-> Hne]] _ IH].
  - cbn [app find_rsa_key].
    rewrite (bind_ok _ _ _ _ _ (lift_ok _ _ _ (dict_get_py_get ekv "kid"))).
    rewrite (bind_ok _ _ _ _ _ (lift_ok _ _ _ (subscript_obj kv "kid" _ Hk))).
    rewrite Hkid. cbn [json_eqb]. rewrite String.eqb_refl.
    rewrite (bind_ok _ _ _ _ _ (lift_ok _ _ _ (subscript_obj ekv "kid" _ (dict_get_assoc _ _ _ Hkid)))).
    reflexivity.
  - cbn [app find_rsa_key].
    rewrite (bind_ok _ _ _ _ _ (lift_ok _ _ _ (dict_get_py_get fkv "kid"))).
    rewrite (bind_ok _ _ _ _ _ (lift_ok _ _ _ (subscript_obj kv "kid" _ Hk))).
    destruct (json_eqb (dict_get fkv "kid") (JStr k)) eqn:E.
    + apply json_eqb_str in E. contradiction.
    + exact IH.
Qed.

Lemma jwk_to_rsa_key_ok (w : World) (ekv : list (string * json)) (ns es : string) (n e : Z)
    (t : list event) :
  assoc "n" ekv = Some (JStr ns) -> assoc "e" ekv = Some (JStr es) ->
  b64url_uint w (String.append ns "==") = inl n -> b64url_uint w (String.append es "==") = inl e ->
  rsa_public_key_ok w e n = true ->
  _jwk_to_rsa_key w (JObj ekv) t = (Ok (KeyRsa e n), t).
Proof.
  intros Hn He Hbn Hbe Hok. unfold _jwk_to_rsa_key, jwk_uint, bind, lift.
  rewrite (subscript_obj _ _ _ Hn). cbn -[String.append]. rewrite Hbn. cbn -[String.append].
  rewrite ?He, ?(subscript_obj _ _ _ He). cbn -[String.append]. rewrite Hbe. cbn -[String.append].
  now rewrite Hok.
Qed.

(** X: on the OIDC path, the first key-set entry whose ["kid"] equals
    the header's is the key used, whatever follows it; converted to an
    RSA key from its base64url ["n"] and ["e"] (padded with "=="), it is
    given to [jwt.decode] with audience verification off, whose claims
    [validate_token] returns after the two fetches and the one decode. *)
Theorem validate_token_oidc_first_match (w : World) (self : VtpmValidation) (token : string)
    (kv : list (string * json)) (t : list event) (k : string)
    (mresp jresp : Response) (meta jw : list (string * json)) (u : string)
    (pre post : list json) (ekv : list (string * json)) (ns es : string) (n e : Z)
    (claims : json) :
  get_unverified_header w token = Ok (JObj kv) ->
  dict_get kv "alg" = JStr ALGO ->
  py_truthy (dict_get kv "x5c") = false ->
  assoc "kid" kv = Some (JStr k) ->
  http_get w (String.append (expected_issuer self) (oidc_endpoint self)) = Some mresp ->
  status_code mresp = 200 -> json_body mresp = Some (JObj meta) ->
  assoc "jwks_uri" meta = Some (JStr u) ->
  http_get w u = Some jresp -> status_code jresp = 200 -> json_body jresp = Some (JObj jw) ->
  assoc "keys" jw = Some (JList (pre ++ JObj ekv :: post)) ->
  Forall (fun e => exists ekv, e = JObj ekv /\ dict_get ekv "kid" <> JStr k) pre ->
  dict_get ekv "kid" = JStr k ->
  assoc "n" ekv = Some (JStr ns) -> assoc "e" ekv = Some (JStr es) ->
  b64url_uint w (String.append ns "==") = inl n -> b64url_uint w (String.append es "==") = inl e ->
  rsa_public_key_ok w e n = true ->
  jwt_decode w token (KeyRsa e n) false = JwtClaims claims ->
  validate_token w self token t =
    (Ok claims,
     t ++ [EvHttpGet (String.append (expected_issuer self) (oidc_endpoint self)); EvHttpGet u;
           EvJwtDecode]).
Proof.
  intros Hh Halg Hx5c Hk Hm Hms Hmj Hu Hj Hjs Hjj Hkeys Hpre Hkid Hn He Hbn Hbe Hok Hjwt.
  rewrite (validate_token_dispatch _ _ _ _ _ Hh Halg), Hx5c.
  rewrite (oidc_up_to_keys w self token _ t mresp jresp meta jw u _ Hm Hms Hmj Hu Hj Hjs Hjj Hkeys).
  unfold bind at 1. rewrite (find_rsa_key_first _ _ _ _ _ _ _ Hk Hpre Hkid).
  rewrite (bind_ok _ _ _ _ _ (jwk_to_rsa_key_ok _ _ _ _ _ _ _ Hn He Hbn Hbe Hok)).
  cbn [ret]. apply try_ok. rewrite (run_jwt_decode_ok _ _ _ _ _ _ Hjwt).
  now rewrite <- app_assoc.
Qed.

Lemma validate_token_oidc_first_match_witness :
  validate_token (Samples.oidc_world "k2" [Samples.key_entry "k1"; Samples.key_entry "k2"])
    default_validation "tok" []
  = (Ok (JObj [("iss", JStr Samples.issuer)]),
     [] ++ [EvHttpGet (String.append (expected_issuer default_validation)
                                     (oidc_endpoint default_validation));
            EvHttpGet Samples.jwks_url; EvJwtDecode]).
Proof.
  apply (validate_token_oidc_first_match _ _ _ [("alg", JStr "RS256"); ("kid", JStr "k2")] [] "k2"
           (mkResponse 200 [] (Some (JObj [("jwks_uri", JStr Samples.jwks_url)])))
           (mkResponse 200 [] (Some (JObj [("keys", JList [Samples.key_entry "k1";
                                                           Samples.key_entry "k2"])])))
           [("jwks_uri", JStr Samples.jwks_url)]
           [("keys", JList [Samples.key_entry "k1"; Samples.key_entry "k2"])]
           Samples.jwks_url [Samples.key_entry "k1"] []
           [("kid", JStr "k2"); ("n", JStr "AQAB"); ("e", JStr "AQAB")] "AQAB" "AQAB"
           65537 65537); try reflexivity.
  repeat constructor. eexists; split; [reflexivity | cbn; discriminate].
Defined.

(** X: when [jwt.decode] rejects an OIDC token, [validate_token] raises
    [SignatureValidationError("Token has expired")] for an
    [ExpiredSignatureError], [VtpmValidationError("Token is invalid")]
    for any other [InvalidTokenError], and [VtpmValidationError("Unexpected
    error during validation")] otherwise; the decoder's own message is
    dropped. *)
Theorem validate_token_oidc_decode_error (w : World) (self : VtpmValidation) (token : string)
    (kv : list (string * json)) (t : list event) (k : string)
    (mresp jresp : Response) (meta jw : list (string * json)) (u : string)
    (pre post : list json) (ekv : list (string * json)) (ns es : string) (n e : Z)
    (ec : exc_class) (m : string) :
  get_unverified_header w token = Ok (JObj kv) ->
  dict_get kv "alg" = JStr ALGO ->
  py_truthy (dict_get kv "x5c") = false ->
  assoc "kid" kv = Some (JStr k) ->
  http_get w (String.append (expected_issuer self) (oidc_endpoint self)) = Some mresp ->
  status_code mresp = 200 -> json_body mresp = Some (JObj meta) ->
  assoc "jwks_uri" meta = Some (JStr u) ->
  http_get w u = Some jresp -> status_code jresp = 200 -> json_body jresp = Some (JObj jw) ->
  assoc "keys" jw = Some (JList (pre ++ JObj ekv :: post)) ->
  Forall (fun e => exists ekv, e = JObj ekv /\ dict_get ekv "kid" <> JStr k) pre ->
  dict_get ekv "kid" = JStr k ->
  assoc "n" ekv = Some (JStr ns) -> assoc "e" ekv = Some (JStr es) ->
  b64url_uint w (String.append ns "==") = inl n -> b64url_uint w (String.append es "==") = inl e ->
  rsa_public_key_ok w e n = true ->
  jwt_decode w token (KeyRsa e n) false = JwtError ec m ->
  validate_token w self token t =
    (Raise (if isinstance ec ExpiredSignatureError
            then mkExn SignatureValidationError [Lit "Token has expired"]
            else if isinstance ec InvalidTokenError
            then mkExn VtpmValidationError [Lit "Token is invalid"]
            else mkExn VtpmValidationError [Lit "Unexpected error during validation"]),
     t ++ [EvHttpGet (String.append (expected_issuer self) (oidc_endpoint self)); EvHttpGet u;
           EvJwtDecode]).
Proof.
  intros Hh Halg Hx5c Hk Hm Hms Hmj Hu Hj Hjs Hjj Hkeys Hpre Hkid Hn He Hbn Hbe Hok Hjwt.
  rewrite (validate_token_dispatch _ _ _ _ _ Hh Halg), Hx5c.
  rewrite (oidc_up_to_keys w self token _ t mresp jresp meta jw u _ Hm Hms Hmj Hu Hj Hjs Hjj Hkeys).
  unfold bind at 1. rewrite (find_rsa_key_first _ _ _ _ _ _ _ Hk Hpre Hkid).
  rewrite (bind_ok _ _ _ _ _ (jwk_to_rsa_key_ok _ _ _ _ _ _ _ Hn He Hbn Hbe Hok)).
  cbn [ret]. rewrite (try_raise _ _ _ _ _ (run_jwt_decode_error _ _ _ _ _ _ _ Hjwt)).
  cbn [cls]. rewrite <- app_assoc.
  destruct (isinstance ec ExpiredSignatureError); [reflexivity |].
  destruct (isinstance ec InvalidTokenError); reflexivity.
Qed.

Lemma validate_token_oidc_decode_error_witness :
  validate_token (Samples.with_jwt
                    (Samples.oidc_world "k1" [Samples.key_entry "k1"])
                    (JwtError ExpiredSignatureError "Signature has expired"))
    default_validation "tok" []
  = (Raise (mkExn SignatureValidationError [Lit "Token has expired"]),
     [] ++ [EvHttpGet (String.append (expected_issuer default_validation)
                                     (oidc_endpoint default_validation));
            EvHttpGet Samples.jwks_url; EvJwtDecode]).
Proof.
  apply (validate_token_oidc_decode_error _ _ _ [("alg", JStr "RS256"); ("kid", JStr "k1")] [] "k1"
           (mkResponse 200 [] (Some (JObj [("jwks_uri", JStr Samples.jwks_url)])))
           (mkResponse 200 [] (Some (JObj [("keys", JList [Samples.key_entry "k1"])])))
           [("jwks_uri", JStr Samples.jwks_url)]
           [("keys", JList [Samples.key_entry "k1"])]
           Samples.jwks_url [] []
           [("kid", JStr "k1"); ("n", JStr "AQAB"); ("e", JStr "AQAB")] "AQAB" "AQAB"
           65537 65537 ExpiredSignatureError "Signature has expired"); try reflexivity.
  constructor.
Defined.

(** X: an error raised while converting the matching key-set entry to an
    RSA key (a missing ["n"] or ["e"], bad base64, invalid public
    numbers) is outside the [try] around [jwt.decode]: it escapes
    [validate_token] unchanged and the token is not decoded. *)
Theorem validate_token_oidc_key_conversion_error (w : World) (self : VtpmValidation)
    (token : string) (kv : list (string * json)) (t : list event) (k : string)
    (mresp jresp : Response) (meta jw : list (string * json)) (u : string)
    (pre post : list json) (ekv : list (string * json)) (err : exn) :
  get_unverified_header w token = Ok (JObj kv) ->
  dict_get kv "alg" = JStr ALGO ->
  py_truthy (dict_get kv "x5c") = false ->
  assoc "kid" kv = Some (JStr k) ->
  http_get w (String.append (expected_issuer self) (oidc_endpoint self)) = Some mresp ->
  status_code mresp = 200 -> json_body mresp = Some (JObj meta) ->
  assoc "jwks_uri" meta = Some (JStr u) ->
  http_get w u = Some jresp -> status_code jresp = 200 -> json_body jresp = Some (JObj jw) ->
  assoc "keys" jw = Some (JList (pre ++ JObj ekv :: post)) ->
  Forall (fun e => exists ekv, e = JObj ekv /\ dict_get ekv "kid" <> JStr k) pre ->
  dict_get ekv "kid" = JStr k ->
  (forall t', _jwk_to_rsa_key w (JObj ekv) t' = (Raise err, t')) ->
  validate_token w self token t =
    (Raise err,
     t ++ [EvHttpGet (String.append (expected_issuer self) (oidc_endpoint self)); EvHttpGet u]).
Proof.
  intros Hh Halg Hx5c Hk Hm Hms Hmj Hu Hj Hjs Hjj Hkeys Hpre Hkid Hconv.
  rewrite (validate_token_dispatch _ _ _ _ _ Hh Halg), Hx5c.
  rewrite (oidc_up_to_keys w self token _ t mresp jresp meta jw u _ Hm Hms Hmj Hu Hj Hjs Hjj Hkeys).
  unfold bind at 1. rewrite (find_rsa_key_first _ _ _ _ _ _ _ Hk Hpre Hkid).
  rewrite (bind_raise _ _ _ _ _ (Hconv _)). reflexivity.
Qed.

Lemma validate_token_oidc_key_conversion_error_witness :
  validate_token (Samples.oidc_world "k1" [Samples.key_entry_no_n "k1"])
    default_validation "tok" []
  = (Raise (mkExn KeyError [Val (JStr "n")]),
     [] ++ [EvHttpGet (String.append (expected_issuer default_validation)
                                     (oidc_endpoint default_validation));
            EvHttpGet Samples.jwks_url]).
Proof.
  apply (validate_token_oidc_key_conversion_error _ _ _ [("alg", JStr "RS256"); ("kid", JStr "k1")]
           [] "k1"
           (mkResponse 200 [] (Some (JObj [("jwks_uri", JStr Samples.jwks_url)])))
           (mkResponse 200 [] (Some (JObj [("keys", JList [Samples.key_entry_no_n "k1"])])))
           [("jwks_uri", JStr Samples.jwks_url)]
           [("keys", JList [Samples.key_entry_no_n "k1"])]
           Samples.jwks_url [] [] [("kid", JStr "k1"); ("e", JStr "AQAB")]); try reflexivity.
  constructor.
Defined.

(** X: OpenID metadata without ["jwks_uri"] makes [validate_token] raise
    [KeyError('jwks_uri')], unwrapped, after the metadata fetch alone. *)
Theorem validate_token_oidc_no_jwks_uri (w : World) (self : VtpmValidation) (token : string)
    (kv : list (string * json)) (t : list event) (mresp : Response)
    (meta : list (string * json)) :
  get_unverified_header w token = Ok (JObj kv) ->
  dict_get kv "alg" = JStr ALGO ->
  py_truthy (dict_get kv "x5c") = false ->
  http_get w (String.append (expected_issuer self) (oidc_endpoint self)) = Some mresp ->
  status_code mresp = 200 -> json_body mresp = Some (JObj meta) ->
  assoc "jwks_uri" meta = None ->
  validate_token w self token t =
    (Raise (mkExn KeyError [Val (JStr "jwks_uri")]),
     t ++ [EvHttpGet (String.append (expected_issuer self) (oidc_endpoint self))]).
Proof.
  intros Hh Halg Hx5c Hm Hms Hmj Hu.
  rewrite (validate_token_dispatch _ _ _ _ _ Hh Halg), Hx5c.
  unfold _decode_and_validate_oidc.
  rewrite (bind_ok _ _ _ _ _ (well_known_ok w _ _ t mresp Hm Hms)).
  rewrite (bind_ok _ _ _ _ _ (response_json_ok _ _ _ Hmj)).
  apply bind_raise. cbn. now rewrite Hu.
Qed.

Lemma validate_token_oidc_no_jwks_uri_witness :
  validate_token (Samples.with_http (Samples.oidc_world "k1" [])
                    (Some (mkResponse 200 [] (Some (JObj [("issuer", JStr Samples.issuer)])))))
    default_validation "tok" []
  = (Raise (mkExn KeyError [Val (JStr "jwks_uri")]),
     [] ++ [EvHttpGet (String.append (expected_issuer default_validation)
                                     (oidc_endpoint default_validation))]).
Proof.
  apply (validate_token_oidc_no_jwks_uri _ _ _ [("alg", JStr "RS256"); ("kid", JStr "k1")] []
           (mkResponse 200 [] (Some (JObj [("issuer", JStr Samples.issuer)])))
           [("issuer", JStr Samples.issuer)]); reflexivity.
Defined.

(** X: a token whose header segment does not decode to a JSON object
    makes [validate_token] raise PyJWT's [DecodeError] (an
    [InvalidTokenError], not a [VtpmValidationError]) before anything
    is fetched. *)
Theorem validate_token_bad_header (w : World) (self : VtpmValidation) (token : string)
    (t : list event) :
  (jwt_header_segment w token = None \/
   exists v, jwt_header_segment w token = Some v /\ forall kv, v <> JObj kv) ->
  exists m,
    validate_token w self token t = (Raise (mkExn DecodeError m), t) /\
    isinstance DecodeError InvalidTokenError = true /\
    isinstance DecodeError VtpmValidationError = false.
Proof.
  intros Hseg. unfold validate_token, get_unverified_header.
  destruct Hseg as [-> | [v [-> Hv]]].
  - eexists. repeat split.
  - destruct v as [| | | | | kv]; try (eexists; repeat split; fail).
    exfalso. exact (Hv kv eq_refl).
Qed.

Lemma validate_token_bad_header_witness :
  exists m,
    validate_token (Samples.with_header (Samples.oidc_world "k1" []) None) default_validation
      "not-a-jwt" [] = (Raise (mkExn DecodeError m), []) /\
    isinstance DecodeError InvalidTokenError = true /\
    isinstance DecodeError VtpmValidationError = false.
Proof.
  apply (validate_token_bad_header _ _ _ []). left. reflexivity.
Defined.

End Props.

(** ** Properties of the attestation client *)

Module AttestationProps.
Import Attestation Samples.

Lemma check_nonce_length_accepts (nonces : list pystr) (t : list event) :
  Forall nonce_in_range nonces -> _check_nonce_length nonces t = (Ok tt, t).
Proof.
  unfold _check_nonce_length. intro H.
  induction H as [|n rest [b [Hb Hlen]] _ IH]; [reflexivity |].
  cbn [check_nonces]. unfold bind, encode_utf8. rewrite Hb. cbn [ret].
  destruct (Z.of_nat (length b) <? 10) eqn:E1; [apply Z.ltb_lt in E1; lia |].
  destruct (Z.of_nat (length b) >? 74) eqn:E2; [apply Z.gtb_lt in E2; lia |].
  exact IH.
Qed.

(** The accept/reject part of the nonce check: it accepts exactly the
    nonce lists whose every element encodes to 10..74 bytes. *)
Lemma check_nonce_length_ok_iff (nonces : list pystr) (t : list event) :
  fst (_check_nonce_length nonces t) = Ok tt <-> Forall nonce_in_range nonces.
Proof.
  split; [| intro H; now rewrite check_nonce_length_accepts].
  unfold _check_nonce_length.
  induction nonces as [|n rest IH]; intro H; [constructor |].
  cbn [check_nonces] in H. unfold bind, encode_utf8 in H.
  destruct (utf8_encode n) as [b|] eqn:Hb; [| discriminate].
  cbn [ret] in H.
  destruct (Z.of_nat (length b) <? 10) eqn:E1; [discriminate |].
  destruct (Z.of_nat (length b) >? 74) eqn:E2; [discriminate |].
  cbn in H. constructor.
  - exists b. split; [exact Hb |].
    apply Z.ltb_ge in E1. rewrite Z.gtb_ltb in E2. apply Z.ltb_ge in E2. lia.
  - now apply IH.
Qed.

(** C2 (code bug): a 9-byte nonce is rejected, but the message names the
    nonce and the lower bound only: the upper bound 74 is missing because
    the message's second f-string line is a discarded statement. *)
Theorem C2_nonce_message_omits_upper_bound :
  fst (_check_nonce_length [nonce9] [])
    = Raise (mkExn VtpmAttestationError
               [Lit "Nonce '"; Nonce nonce9; Lit "' must be between "; Num 10; Lit " bytes"]) /\
  ~ In (Num 74) [Lit "Nonce '"; Nonce nonce9; Lit "' must be between "; Num 10; Lit " bytes"].
Proof.
  split; [vm_compute; reflexivity |].
  cbn. intros H. repeat (destruct H as [H|H]; [discriminate|]). exact H.
Qed.

(** C5: with [simulate = true] and nonces of valid length, [get_token]
    returns [SIM_TOKEN] whatever the audience and token type, and
    performs no socket operation (the trace is unchanged). *)
Theorem C5_simulated_token_fixed (SIM_TOKEN : pystr) (sw : SocketWorld) (self : Vtpm)
    (nonces : list pystr) (audience token_type : string) (t : list event) :
  simulate self = true ->
  Forall nonce_in_range nonces ->
  get_token SIM_TOKEN sw self nonces audience token_type t = (Ok SIM_TOKEN, t).
Proof.
  intros Hsim Hn. unfold get_token.
  rewrite (bind_ok _ _ _ _ _ (check_nonce_length_accepts nonces t Hn)).
  now rewrite Hsim.
Qed.

Lemma C5_witness :
  get_token (ascii_cps "eyJhbGciOiJSUzI1NiJ9.e30.sig") (mkSocketWorld (fun _ => false) false None)
    (default_vtpm true) [nonce10] "https://example.test" "OIDC" []
  = (Ok (ascii_cps "eyJhbGciOiJSUzI1NiJ9.e30.sig"), []).
Proof.
  apply C5_simulated_token_fixed; [reflexivity |].
  constructor; [| constructor]. eexists; split; [reflexivity | cbn; lia].
Defined.

(** C6 (code bug): when the attestation endpoint answers a non-200
    status, [get_token] raises [VtpmAttestationError] without closing
    the socket it opened: [conn.close()] is only reached on success. *)
Theorem C6_endpoint_error_leaves_socket_open :
  get_token (ascii_cps "sim") failing_socket_world (default_vtpm false) [nonce10]
    "https://example.test" "OIDC" []
  = (Raise (mkExn VtpmAttestationError
              [Lit "Failed to get attestation response: "; Num 500; Lit " ";
               Text "Internal Server Error"]),
     [EvSockCreate 0; EvSockConnect 0 "/run/container_launcher/teeserver.sock";
      EvSockSend 0; EvSockRecv 0]) /\
  ~ In (EvSockClose 0) [EvSockCreate 0; EvSockConnect 0 "/run/container_launcher/teeserver.sock";
                        EvSockSend 0; EvSockRecv 0].
Proof.
  split; [vm_compute; reflexivity |].
  cbn. intros H. repeat (destruct H as [H|H]; [discriminate|]). exact H.
Qed.

(** The nonce check records no action, whatever it decides. *)
Lemma check_nonces_trace (mn mx : Z) (ns : list pystr) (t : list event) :
  snd (check_nonces mn mx ns t) = t.
Proof.
  induction ns as [|n rest IH]; [reflexivity |].
  cbn [check_nonces]. unfold bind, encode_utf8.
  destruct (utf8_encode n) as [b|]; [cbn [ret] | reflexivity].
  destruct ((Z.of_nat (length b) <? mn) || (Z.of_nat (length b) >? mx)); [reflexivity | exact IH].
Qed.

Lemma check_nonces_classes (mn mx : Z) (ns : list pystr) (t : list event) (e : exn) :
  fst (check_nonces mn mx ns t) = Raise e ->
  cls e = VtpmAttestationError \/ cls e = UnicodeEncodeError.
Proof.
  induction ns as [|n rest IH]; [discriminate |].
  cbn [check_nonces]. unfold bind, encode_utf8.
  destruct (utf8_encode n) as [b|]; cbn [ret raise fst].
  - destruct ((Z.of_nat (length b) <? mn) || (Z.of_nat (length b) >? mx)).
    + intro H. inversion H. now left.
    + exact IH.
  - intro H. inversion H. now right.
Qed.

(** X: a nonce list that is not entirely in range makes [get_token]
    raise [VtpmAttestationError] (or [UnicodeEncodeError] for a lone
    surrogate) before anything else, in simulation mode or not: no socket
    is created (the trace is unchanged). *)
Theorem get_token_bad_nonce_no_io (SIM_TOKEN : pystr) (sw : SocketWorld) (self : Vtpm)
    (nonces : list pystr) (audience token_type : string) (t : list event) :
  ~ Forall nonce_in_range nonces ->
  exists e, get_token SIM_TOKEN sw self nonces audience token_type t = (Raise e, t) /\
            (cls e = VtpmAttestationError \/ cls e = UnicodeEncodeError).
Proof.
  intro Hbad. unfold get_token.
  pose proof (check_nonce_length_ok_iff nonces t) as Hiff.
  pose proof (check_nonces_trace 10 74 nonces t) as Htr.
  pose proof (check_nonces_classes 10 74 nonces t) as Hcls.
  unfold _check_nonce_length in *.
  destruct (check_nonces 10 74 nonces t) as [[u|e] t'] eqn:E; cbn in Htr; subst t'.
  - destruct u. exfalso. apply Hbad, Hiff. reflexivity.
  - exists e. split; [unfold bind; now rewrite E | now apply Hcls].
Qed.

Lemma get_token_bad_nonce_no_io_witness :
  ~ Forall nonce_in_range [nonce10; nonce9] /\
  exists e, get_token (ascii_cps "sim") failing_socket_world (default_vtpm false) [nonce10; nonce9]
              "https://example.test" "OIDC" [] = (Raise e, []) /\
            (cls e = VtpmAttestationError \/ cls e = UnicodeEncodeError).
Proof.
  assert (H : ~ Forall nonce_in_range [nonce10; nonce9]).
  { intro H. inversion H as [|? ? _ H2]. inversion H2 as [|? ? [b [Hb Hl]] _].
    vm_compute in Hb. inversion Hb. subst b. cbn in Hl. lia. }
  split; [exact H | apply get_token_bad_nonce_no_io; exact H].
Defined.

(** X: the nonce check reports the first offending nonce: when every
    nonce before [bad] is in range and [bad] encodes to fewer than 10 or
    more than 74 bytes, the error names [bad] (whatever follows it). *)
Theorem check_nonce_length_first_offender (pre rest : list pystr) (bad : pystr)
    (b : list Z) (t : list event) :
  Forall nonce_in_range pre ->
  utf8_encode bad = Some b ->
  (Z.of_nat (length b) < 10 \/ Z.of_nat (length b) > 74) ->
  _check_nonce_length (pre ++ bad :: rest) t =
    (Raise (mkExn VtpmAttestationError
              [Lit "Nonce '"; Nonce bad; Lit "' must be between "; Num 10; Lit " bytes"]), t).
Proof.
  unfold _check_nonce_length. intros Hpre Hb Hlen.
  induction Hpre as [|n pre' [c [Hc Hcl]] _ IH].
  - cbn [app check_nonces]. unfold bind, encode_utf8. rewrite Hb. cbn [ret].
    destruct Hlen as [Hl|Hl].
    + apply Z.ltb_lt in Hl. now rewrite Hl.
    + assert (Hg : (Z.of_nat (length b) >? 74) = true) by (apply Z.gtb_lt; lia).
      rewrite Hg, orb_true_r. reflexivity.
  - cbn [app check_nonces]. unfold bind at 1, encode_utf8. rewrite Hc. cbn [ret].
    destruct (Z.of_nat (length c) <? 10) eqn:E1; [apply Z.ltb_lt in E1; lia |].
    destruct (Z.of_nat (length c) >? 74) eqn:E2; [apply Z.gtb_lt in E2; lia |].
    exact IH.
Qed.

Lemma check_nonce_length_first_offender_witness :
  _check_nonce_length ([nonce10] ++ nonce9 :: [ascii_cps "x"]) [] =
    (Raise (mkExn VtpmAttestationError
              [Lit "Nonce '"; Nonce nonce9; Lit "' must be between "; Num 10; Lit " bytes"]), []).
Proof.
  apply (check_nonce_length_first_offender _ _ _ (map (fun c => c) nonce9)).
  - constructor; [| constructor]. eexists; split; [reflexivity | cbn; lia].
  - reflexivity.
  - cbn. lia.
Defined.

Lemma sockets_created_app (t l : list event) :
  sockets_created (t ++ l) = (sockets_created t + sockets_created l)%nat.
Proof. induction t as [|[] t IH]; cbn; rewrite ?IH; reflexivity. Qed.

(** X: a non-simulated [get_token] whose connect and send succeed and
    whose response has status 200 and a UTF-8 body returns the decoded
    body; it creates a fresh socket, connects, sends, reads the response
    and closes the socket once, whether [getresponse] closes it (a
    response that will close) or [conn.close()] does. *)
Theorem get_token_success (SIM_TOKEN : pystr) (sw : SocketWorld) (self : Vtpm)
    (nonces : list pystr) (audience token_type : string) (res : HttpResponse)
    (token : pystr) (t : list event) :
  simulate self = false ->
  Forall nonce_in_range nonces ->
  connect_ok sw (unix_socket_path self) = true ->
  send_ok sw = true ->
  response sw = Some res ->
  status res = 200 ->
  utf8_decode (body res) = Some token ->
  let fd := sockets_created t in
  get_token SIM_TOKEN sw self nonces audience token_type t =
    (Ok token, t ++ [EvSockCreate fd; EvSockConnect fd (unix_socket_path self);
                     EvSockSend fd; EvSockRecv fd; EvSockClose fd]) /\
  sockets_created (t ++ [EvSockCreate fd; EvSockConnect fd (unix_socket_path self);
                         EvSockSend fd; EvSockRecv fd; EvSockClose fd]) = S fd.
Proof.
  intros Hsim Hn Hc Hs Hr Hst Hdec fd. split.
  - unfold get_token.
    rewrite (bind_ok _ _ _ _ _ (check_nonce_length_accepts nonces t Hn)), Hsim.
    unfold bind, new_socket, emit, ret. rewrite Hc, Hs, Hr, Hst, Hdec. fold fd.
    destruct (will_close res); cbn; now rewrite <- !app_assoc.
  - rewrite sockets_created_app. cbn. fold fd. lia.
Qed.

Lemma get_token_success_witness :
  get_token (ascii_cps "sim")
    (mkSocketWorld (fun _ => true) true
       (Some (mkHttpResponse 200 "OK" (ascii_cps "eyJ.token") false)))
    (default_vtpm false) [nonce10] "https://example.test" "PKI" [EvSockCreate 0]
  = (Ok (ascii_cps "eyJ.token"),
     [EvSockCreate 0] ++
     [EvSockCreate 1; EvSockConnect 1 "/run/container_launcher/teeserver.sock";
      EvSockSend 1; EvSockRecv 1; EvSockClose 1]) /\
  sockets_created ([EvSockCreate 0] ++
     [EvSockCreate 1; EvSockConnect 1 "/run/container_launcher/teeserver.sock";
      EvSockSend 1; EvSockRecv 1; EvSockClose 1]) = 2%nat.
Proof.
  apply (get_token_success (ascii_cps "sim")
           (mkSocketWorld (fun _ => true) true
              (Some (mkHttpResponse 200 "OK" (ascii_cps "eyJ.token") false)))
           (default_vtpm false) [nonce10] "https://example.test" "PKI"
           (mkHttpResponse 200 "OK" (ascii_cps "eyJ.token") false) (ascii_cps "eyJ.token")
           [EvSockCreate 0]); try reflexivity.
  constructor; [| constructor]. eexists; split; [reflexivity | cbn; lia].
Defined.

Lemma utf8_encode_char_len (c : Z) (b : list Z) :
  utf8_encode_char c = Some b ->
  (1 <= length b <= 4)%nat /\ (c < 128 -> length b = 1%nat).
Proof.
  unfold utf8_encode_char. intro H.
  destruct (c <? 128) eqn:E1; [inversion H; subst; cbn; split; [lia | auto] |].
  apply Z.ltb_ge in E1.
  destruct (c <? 2048); [inversion H; subst; cbn; split; [lia | lia] |].
  destruct ((55296 <=? c) && (c <=? 57343)); [discriminate |].
  destruct (c <? 65536); inversion H; subst; cbn; split; lia.
Qed.

Lemma utf8_encode_len (s : pystr) (b : list Z) :
  utf8_encode s = Some b ->
  (length s <= length b <= 4 * length s)%nat /\
  (Forall (fun c => c < 128) s -> length b = length s).
Proof.
  revert b. induction s as [|c r IH]; intros b H.
  - inversion H. cbn. split; [lia | auto].
  - cbn in H. destruct (utf8_encode_char c) as [bc|] eqn:Ec; [| discriminate].
    destruct (utf8_encode r) as [br|] eqn:Er; [| discriminate].
    inversion H; subst b. rewrite length_app.
    destruct (utf8_encode_char_len c bc Ec) as [Hc Hc1].
    destruct (IH br eq_refl) as [Hr Hr1]. cbn. split; [lia |].
    intro Hall. inversion Hall; subst. rewrite Hc1, Hr1 by assumption. reflexivity.
Qed.

(** X: since a code point encodes to one to four bytes, a nonce the
    check accepts has between 3 and 74 code points; for an ASCII nonce
    the check accepts exactly the lengths 10 to 74. *)
Theorem nonce_in_range_code_points (n : pystr) :
  (nonce_in_range n -> (3 <= length n <= 74)%nat) /\
  (Forall (fun c => 0 <= c < 128) n -> (nonce_in_range n <-> (10 <= length n <= 74)%nat)).
Proof.
  split.
  - intros [b [Hb Hl]]. destruct (utf8_encode_len n b Hb) as [H _]. lia.
  - intro Hascii.
    assert (Hlt : Forall (fun c => c < 128) n).
    { eapply Forall_impl; [| exact Hascii]. cbn. lia. }
    assert (Henc : exists b, utf8_encode n = Some b).
    { clear Hlt. induction Hascii as [|c r Hc _ IH]; [exists []; reflexivity |].
      destruct IH as [br IH]. exists ([c] ++ br)%list. cbn. unfold utf8_encode_char.
      destruct (c <? 128) eqn:E; [| apply Z.ltb_ge in E; lia]. now rewrite IH. }
    destruct Henc as [b Hb]. destruct (utf8_encode_len n b Hb) as [_ Heq].
    specialize (Heq Hlt). split.
    + intros [b' [Hb' Hl]]. rewrite Hb in Hb'. inversion Hb'; subst b'. lia.
    + intro Hl. exists b. split; [exact Hb | lia].
Qed.



End AttestationProps.
